(** * Medical chatbot relay (app.py): shallow embedding and verified properties

    The development follows [app.py]: the [MedicalChatbot] class
    ([test_ollama_connection], [process_medical_query],
    [get_conversation_history]) and the Flask handlers [chat] and
    [get_history].

    Python strings are sequences of Unicode code points, Python objects that
    are mutated in place (the conversation list) live in a store addressed by
    references, and Python code is written in a small state-and-exception
    monad [Py].  The upstream server, the request body and the clock are
    oracles: the functions are verified for every behaviour of them.
    The console is a UTF-8 stream: [print] raises [UnicodeEncodeError] on a
    text with a lone surrogate and otherwise writes; what it writes is not
    part of the state. *)

From Stdlib Require Import ZArith NArith QArith_base String Ascii DecimalString SpecFloat.
From Stdlib Require HexadecimalString.
From stdpp Require Import gmap list.

Local Open Scope Z_scope.

(** ** Python strings *)

(** A [str] is a sequence of code points. *)
Definition pystr := list N.

(** An ASCII literal of the source. *)
Definition lit (x : string) : pystr :=
  List.map N_of_ascii (list_ascii_of_string x).

(** [str(n)] for an [int]. *)
Definition str_int (n : Z) : pystr :=
  lit (NilZero.string_of_int (Z.to_int n)).

(** [str.isspace] on one code point (CPython's [Py_UNICODE_ISSPACE]). *)
Definition isspace (c : N) : bool :=
  (((0x09 <=? c) && (c <=? 0x0D)) || ((0x1C <=? c) && (c <=? 0x20))
   || (c =? 0x85) || (c =? 0xA0) || (c =? 0x1680)
   || ((0x2000 <=? c) && (c <=? 0x200A))
   || (c =? 0x2028) || (c =? 0x2029) || (c =? 0x202F) || (c =? 0x205F)
   || (c =? 0x3000))%N.

Fixpoint lstrip (x : pystr) : pystr :=
  match x with
  | c :: x' => if isspace c then lstrip x' else x
  | [] => []
  end.

Definition rstrip (x : pystr) : pystr := rev (lstrip (rev x)).

(** [x.strip()] *)
Definition strip (x : pystr) : pystr := rstrip (lstrip x).

(** [sub in x] on strings. *)
Definition contains (sub x : pystr) : Prop :=
  exists pre post, x = pre ++ sub ++ post.

(** ** The console *)

(** A code point UTF-8 cannot encode. *)
Definition is_surrogate (c : N) : bool := ((0xD800 <=? c) && (c <=? 0xDFFF))%N.

(** The text can be written to the console. *)
Definition printable (x : pystr) : bool :=
  forallb (fun c => negb (is_surrogate c)) x.

(** The position of the first surrogate of a text that has one. *)
Fixpoint first_surrogate (x : pystr) : nat :=
  match x with
  | c :: x' => if is_surrogate c then 0%nat else S (first_surrogate x')
  | [] => 0%nat
  end.

(** The number of surrogates a text starts with. *)
Fixpoint surrogate_run (x : pystr) : nat :=
  match x with
  | c :: x' => if is_surrogate c then S (surrogate_run x') else 0%nat
  | [] => 0%nat
  end.

Definition decimal (n : nat) : string := NilZero.string_of_uint (Nat.to_uint n).

Definition hexadecimal (c : N) : string :=
  HexadecimalString.NilZero.string_of_uint (N.to_hex_uint c).

(** [str(e)] of the [UnicodeEncodeError] the UTF-8 codec raises for [x]:
    it names the first run of surrogates. *)
Definition encode_error_text (x : pystr) : string :=
  let i := first_surrogate x in
  let bad := drop i x in
  match surrogate_run bad with
  | 1%nat =>
      ("'utf-8' codec can't encode character '\u" ++ hexadecimal (hd 0%N bad)
       ++ "' in position " ++ decimal i ++ ": surrogates not allowed")%string
  | k =>
      ("'utf-8' codec can't encode characters in position " ++ decimal i ++ "-"
       ++ decimal (i + k - 1) ++ ": surrogates not allowed")%string
  end.

(** ** Python values: what [json()] can produce *)

#[warnings="-register-all"]
Inductive pyval :=
| PNone
| PBool (b : bool)
| PInt (n : Z)
| PFloat (f : spec_float)
| PStr (x : pystr)
| PList (l : list pyval)
| PDict (d : list (pystr * pyval)).

(** Truth value of an object, as [not v] and [if v] test it. *)
Definition truthy (v : pyval) : bool :=
  match v with
  | PNone => false
  | PBool b => b
  | PInt n => negb (n =? 0)
  | PFloat f => match f with S754_zero _ => false | _ => true end
  | PStr x => match x with [] => false | _ => true end
  | PList l => match l with [] => false | _ => true end
  | PDict d => match d with [] => false | _ => true end
  end.

Definition type_name_text (v : pyval) : string :=
  match v with
  | PNone => "NoneType"
  | PBool _ => "bool"
  | PInt _ => "int"
  | PFloat _ => "float"
  | PStr _ => "str"
  | PList _ => "list"
  | PDict _ => "dict"
  end.

Definition type_name (v : pyval) : pystr := lit (type_name_text v).

(** Lookup in the entries of a [dict] (keys are pairwise distinct in a
    Python dict; the first entry with the key is the entry). *)
Fixpoint dict_lookup (k : pystr) (d : list (pystr * pyval)) : option pyval :=
  match d with
  | [] => None
  | (k', v) :: d' => if bool_decide (k' = k) then Some v else dict_lookup k d'
  end.

(** ** Exceptions *)

(** An exception object: the [isinstance] tests the handlers of the source
    make, and [str(e)]. The text of an exception is text the console can
    write: the interpreter and the libraries compose it from fixed texts and
    from escaped representations of data (a lone surrogate appears in it as
    its escape, as in the text of [UnicodeEncodeError]). *)
Record exn := {
  is_Timeout : bool;            (* requests.exceptions.Timeout *)
  is_ConnectionError : bool;    (* requests.exceptions.ConnectionError *)
  is_RequestException : bool;   (* requests.exceptions.RequestException *)
  is_Exception : bool;          (* Exception *)
  exn_str : pystr;
  exn_printable : printable exn_str = true
}.

(** An exception of the interpreter with the ASCII text [msg], which has
    no surrogate. *)
Program Definition builtin_error (msg : string) : exn :=
  {| is_Timeout := false; is_ConnectionError := false;
     is_RequestException := false; is_Exception := true;
     exn_str := lit msg; exn_printable := _ |}.
Next Obligation.
  intros msg. unfold printable, lit.
  induction msg as [|a msg IH]; simpl; [reflexivity|].
  rewrite IH, andb_true_r. unfold is_surrogate.
  pose proof (N_ascii_bounded a) as Ha.
  apply negb_true_iff, andb_false_iff. left. apply N.leb_gt. lia.
Qed.

(** [v.attr] on an object without that attribute. *)
Definition AttributeError (v : pyval) (attr : string) : exn :=
  builtin_error ("'" ++ type_name_text v ++ "' object has no attribute '"
                 ++ attr ++ "'")%string.

(** [v[:n]] on an object that cannot be sliced. *)
Definition TypeError_subscript (v : pyval) : exn :=
  builtin_error ("'" ++ type_name_text v ++ "' object is not subscriptable")%string.

(** What [print] raises for a text the console cannot write. *)
Definition UnicodeEncodeError (x : pystr) : exn :=
  builtin_error (encode_error_text x).

(** ** The store and the monad of Python code *)

(** One entry of [conversation_history]: the dict with the keys
    ['user'], ['bot'] and ['timestamp']. *)
Record Exchange := {
  user : pystr;
  bot : pyval;
  timestamp : pystr
}.

Definition loc := positive.

(** The body of the generation request ([payload]). *)
Record Payload := {
  p_model : pystr;
  p_prompt : pystr;
  p_stream : bool;
  p_temperature : Q
}.

(** A call made to the upstream server. *)
Inductive call :=
| GET (url : pystr) (timeout : Z)
| POST (url : pystr) (json : Payload) (timeout : Z).

Record pystate := {
  heap : gmap loc (list Exchange);   (* the list objects *)
  calls : list call;                 (* upstream calls made so far *)
  ticks : nat                        (* clock reads made so far *)
}.

Inductive res (A : Type) :=
| Val (a : A)
| Exc (e : exn).
Arguments Val {A} a.
Arguments Exc {A} e.

Definition Py (A : Type) : Type := pystate -> res A * pystate.

Definition ret {A} (a : A) : Py A := fun st => (Val a, st).

Definition raise {A} (e : exn) : Py A := fun st => (Exc e, st).

Definition bind {A B} (m : Py A) (k : A -> Py B) : Py B :=
  fun st =>
    match m st with
    | (Val a, st') => k a st'
    | (Exc e, st') => (Exc e, st')
    end.

(** [try: m  except ... as e: h e] where [h] re-raises what no clause
    matches. *)
Definition try_except {A} (m : Py A) (h : exn -> Py A) : Py A :=
  fun st =>
    match m st with
    | (Val a, st') => (Val a, st')
    | (Exc e, st') => h e st'
    end.

Declare Scope py_scope.
Delimit Scope py_scope with py.
Notation "x <- m ;; k" := (bind m (fun x => k))
  (at level 100, m at next level, right associativity) : py_scope.
Notation "m ;;; k" := (bind m (fun _ => k))
  (at level 100, right associativity) : py_scope.
Local Open Scope py_scope.

(** The list object a reference points to. A reference the program holds
    always points to a list object; one that does not reads as empty. *)
Definition deref (h : gmap loc (list Exchange)) (l : loc) : list Exchange :=
  h !!! l.

(** [[]]: a new list object. *)
Definition new_list : Py loc :=
  fun st =>
    let l := fresh (dom (heap st)) in
    (Val l, {| heap := <[l := []]> (heap st); calls := calls st; ticks := ticks st |}).

(** [print(x)]: the text goes to the console, or the codec refuses it. *)
Definition py_print (x : pystr) : Py unit :=
  if printable x then ret tt else raise (UnicodeEncodeError x).

(** [l.append(x)] *)
Definition list_append (l : loc) (x : Exchange) : Py unit :=
  fun st =>
    (Val tt, {| heap := <[l := deref (heap st) l ++ [x]]> (heap st);
                calls := calls st; ticks := ticks st |}).

(** ** The environment: upstream server, request body, clock *)

(** A [requests.Response]: the attributes and the method the source uses. *)
Record Response := {
  status_code : Z;
  text : res pystr;     (* [response.text] decodes the body, or raises *)
  json : res pyval      (* [response.json()] returns a value or raises *)
}.

Record world := {
  http_get : pystr -> res Response;              (* requests.get(url, ...) *)
  http_post : pystr -> Payload -> res Response;  (* requests.post(url, json=..., ...) *)
  clock : nat -> pystr                           (* n-th datetime.now().isoformat() *)
}.

Definition requests_get (w : world) (url : pystr) (timeout : Z) : Py Response :=
  fun st =>
    (http_get w url,
     {| heap := heap st; calls := calls st ++ [GET url timeout]; ticks := ticks st |}).

Definition requests_post (w : world) (url : pystr) (payload : Payload) (timeout : Z)
  : Py Response :=
  fun st =>
    (http_post w url payload,
     {| heap := heap st; calls := calls st ++ [POST url payload timeout];
        ticks := ticks st |}).

Definition response_json (r : Response) : Py pyval :=
  fun st => (json r, st).

Definition response_text (r : Response) : Py pystr :=
  fun st => (text r, st).

(** [print(f"{before}{v}{after}")] for a string or a list [v]. The text of
    a list is its [repr], which shows every character the console cannot
    write as an escape, so printing it never fails. *)
Definition print_formatted (before : pystr) (v : pyval) (after : pystr) : Py unit :=
  match v with
  | PStr x => py_print (before ++ x ++ after)
  | _ => ret tt
  end.

(** [datetime.now().isoformat()] *)
Definition now_isoformat (w : world) : Py pystr :=
  fun st =>
    (Val (clock w (ticks st)),
     {| heap := heap st; calls := calls st; ticks := S (ticks st) |}).

(** [v.get(k, default)] *)
Definition py_get (v : pyval) (k : pystr) (default : pyval) : Py pyval :=
  match v with
  | PDict d => ret (match dict_lookup k d with Some x => x | None => default end)
  | _ => raise (AttributeError v "get")
  end.

(** [v.strip()] *)
Definition py_strip (v : pyval) : Py pystr :=
  match v with
  | PStr x => ret (strip x)
  | _ => raise (AttributeError v "strip")
  end.

(** [v[:n]]; a dict takes the slice for a key and raises as well. *)
Definition py_slice_to (v : pyval) (n : nat) : Py pyval :=
  match v with
  | PStr x => ret (PStr (take n x))
  | PList l => ret (PList (take n l))
  | PDict _ => raise (builtin_error "unhashable type: 'slice'")
  | _ => raise (TypeError_subscript v)
  end.

(** ** class MedicalChatbot *)

Record MedicalChatbot := {
  model : pystr;
  ollama_url : pystr;
  conversation_history : loc
}.

Definition default_model_name : pystr := lit "llama3.2:3b".

Definition tags_url : pystr := lit "http://localhost:11434/api/tags".

(** [__init__] *)
Definition MedicalChatbot_init (model_name : pystr) : Py MedicalChatbot :=
  l <- new_list ;;
  ret {| model := model_name;
         ollama_url := lit "http://localhost:11434/api/generate";
         conversation_history := l |}.

(** [test_ollama_connection]: the bare [except:] catches every exception. *)
Definition test_ollama_connection (w : world) (self : MedicalChatbot) : Py bool :=
  try_except
    (response <- requests_get w tags_url 5 ;;
     ret (status_code response =? 200))
    (fun _ => ret false).

(** The return statement of [process_medical_query] that produced the
    result, in source order. The Python function returns the bare value. *)
Inductive site :=
| ProbeFailed      (* line 27 *)
| EmptyReply       (* line 63 *)
| Replied          (* line 72 *)
| BadStatus        (* line 76 *)
| TimedOut         (* line 79 *)
| ConnectionLost   (* line 81 *)
| NetworkError     (* line 83 *)
| Unexpected.      (* line 86 *)

Definition msg_probe_failed : pystr :=
  [0x274C%N] ++ lit " Cannot connect to Ollama server. Please make sure Ollama is running with 'ollama serve'".

Definition msg_empty_reply : pystr :=
  [0x26A0%N; 0xFE0F%N] ++ lit " Received empty response from AI model. Try asking your question differently.".

Definition msg_bad_status (status : Z) (model_name : pystr) : pystr :=
  [0x1F527%N] ++ lit " Ollama server error (Status " ++ str_int status
  ++ lit "). Make sure the model '" ++ model_name
  ++ lit "' is installed with: ollama pull " ++ model_name.

Definition msg_timed_out : pystr :=
  [0x23F1%N; 0xFE0F%N] ++ lit " Request timed out. The AI model might be loading. Please wait a moment and try again.".

Definition msg_connection_lost : pystr :=
  [0x1F50C%N] ++ lit " Cannot connect to Ollama server. Please ensure Ollama is running with 'ollama serve'".

Definition msg_network_error (e : exn) : pystr :=
  [0x1F6AB%N] ++ lit " Network error: " ++ exn_str e.

Definition msg_unexpected : pystr :=
  [0x26A0%N; 0xFE0F%N] ++ lit " An unexpected error occurred. Please try again.".

Definition medical_prompt (user_input : pystr) : pystr :=
  lit "You are a helpful medical information assistant. Please provide informative, accurate responses about health topics, but always remind users that this is for educational purposes only and they should consult healthcare professionals for medical advice."
  ++ [10%N; 10%N] ++ lit "User question: " ++ user_input ++ [10%N; 10%N]
  ++ lit "Please provide a helpful response and include a disclaimer about consulting healthcare professionals.".

(** The [except] clauses of [process_medical_query], tried in order; an
    exception that is no [Exception] is not caught. *)
Definition query_handlers (e : exn) : Py (site * pyval) :=
  if is_Timeout e then ret (TimedOut, PStr msg_timed_out)
  else if is_ConnectionError e then ret (ConnectionLost, PStr msg_connection_lost)
  else if is_RequestException e then ret (NetworkError, PStr (msg_network_error e))
  else if is_Exception e then
    py_print ([0x274C%N] ++ lit " Unexpected error: " ++ exn_str e) ;;;
    ret (Unexpected, PStr msg_unexpected)
  else raise e.

(** The [payload] dict of [process_medical_query]. *)
Definition make_payload (self : MedicalChatbot) (user_input : pystr) : Payload :=
  {| p_model := model self;
     p_prompt := medical_prompt user_input;
     p_stream := false;
     p_temperature := Qmake 7 10 |}.

(** [process_medical_query] *)
Definition process_medical_query (w : world) (self : MedicalChatbot) (user_input : pystr)
  : Py (site * pyval) :=
  connected <- test_ollama_connection w self ;;
  if negb connected then ret (ProbeFailed, PStr msg_probe_failed)
  else
    try_except
      (let payload := make_payload self user_input in
       py_print ([0x1F504%N] ++ lit " Sending request to Ollama with model: "
                 ++ model self) ;;;
       response <- requests_post w (ollama_url self) payload 60 ;;
       py_print ([0x1F4E1%N] ++ lit " Ollama response status: "
                 ++ str_int (status_code response)) ;;;
       if status_code response =? 200 then
         result <- response_json response ;;
         ai_response <- py_get result (lit "response") (PStr []) ;;
         if negb (truthy ai_response) then ret (EmptyReply, PStr msg_empty_reply)
         else
           stamp <- now_isoformat w ;;
           list_append (conversation_history self)
             {| user := user_input; bot := ai_response; timestamp := stamp |} ;;;
           ret (Replied, ai_response)
       else
         body_text <- response_text response ;;
         let error_text :=
           if truthy (PStr body_text) then body_text else lit "Unknown error" in
         py_print ([0x274C%N] ++ lit " Ollama error: " ++ error_text) ;;;
         ret (BadStatus, PStr (msg_bad_status (status_code response) (model self))))
      query_handlers.

(** [get_conversation_history]: the list object itself. *)
Definition get_conversation_history (self : MedicalChatbot) : Py loc :=
  ret (conversation_history self).

(** ** Routes *)

(** A Flask response: the JSON document and the status. *)
Record HttpResponse := {
  body : pyval;
  status : Z
}.

(** [jsonify] of one history entry. *)
Definition exchange_dict (e : Exchange) : pyval :=
  PDict [(lit "user", PStr (user e)); (lit "bot", bot e);
         (lit "timestamp", PStr (timestamp e))].

(** [chat]; [get_json] is what [request.get_json()] does for the request,
    [medical_bot] the module-level chatbot. *)
Definition chat (w : world) (medical_bot : MedicalChatbot) (get_json : res pyval)
  : Py HttpResponse :=
  try_except
    (data <- (fun st => (get_json, st)) ;;
     message <- py_get data (lit "message") (PStr []) ;;
     user_message <- py_strip message ;;
     if negb (truthy (PStr user_message)) then
       ret {| body := PDict [(lit "error", PStr (lit "Message cannot be empty"))];
              status := 400 |}
     else
       py_print ([0x1F4AC%N] ++ lit " User message: " ++ user_message) ;;;
       answer <- process_medical_query w medical_bot user_message ;;
       let bot_response := answer.2 in
       shown <- py_slice_to bot_response 100 ;;
       print_formatted ([0x1F916%N] ++ lit " Bot response: ") shown (lit "...") ;;;
       stamp <- now_isoformat w ;;
       ret {| body := PDict [(lit "response", bot_response);
                             (lit "timestamp", PStr stamp)];
              status := 200 |})
    (fun e =>
       if is_Exception e then
         py_print ([0x274C%N] ++ lit " Server error: " ++ exn_str e) ;;;
         ret {| body := PDict [(lit "error", PStr (lit "Server error: " ++ exn_str e))];
                status := 500 |}
       else raise e).

(** [get_history] *)
Definition get_history (medical_bot : MedicalChatbot) : Py HttpResponse :=
  history <- get_conversation_history medical_bot ;;
  fun st =>
    (Val {| body := PList (List.map exchange_dict (deref (heap st) history));
            status := 200 |}, st).

(** ** Python list operations open to whoever holds a reference *)

Inductive list_op :=
| op_append (x : Exchange)           (* l.append(x) *)
| op_clear                           (* l.clear() *)
| op_pop                             (* l.pop() *)
| op_setitem (i : nat) (x : Exchange). (* l[i] = x *)

Definition IndexError (msg : string) : exn := builtin_error msg.

(** The effect of an operation on the contents; [None] where Python raises
    [IndexError] and leaves the list as it is. *)
Definition op_contents (op : list_op) (l : list Exchange) : option (list Exchange) :=
  match op with
  | op_append x => Some (l ++ [x])
  | op_clear => Some []
  | op_pop => match l with [] => None | _ => Some (removelast l) end
  | op_setitem i x => if bool_decide (i < length l)%nat then Some (<[i := x]> l) else None
  end.

Definition op_error (op : list_op) : exn :=
  match op with
  | op_pop => IndexError "pop from empty list"
  | _ => IndexError "list assignment index out of range"
  end.

Definition list_mutate (l : loc) (op : list_op) : Py unit :=
  fun st =>
    match op_contents op (deref (heap st) l) with
    | Some l' => (Val tt, {| heap := <[l := l']> (heap st);
                             calls := calls st; ticks := ticks st |})
    | None => (Exc (op_error op), st)
    end.

(** ** Reading the results *)

(** The contents of the chatbot's conversation list in a state. *)
Definition history (self : MedicalChatbot) (st : pystate) : list Exchange :=
  deref (heap st) (conversation_history self).

(** The result kinds of the specification, read off the return sites. *)
Inductive ErrorKind :=
| ConnectionError
| Timeout
| UpstreamError
| EmptyResponse
| Internal.

Inductive GatewayResult :=
| Ok (reply : pyval)
| Failed (reason : ErrorKind) (message : pyval).

Definition gateway_result (r : site * pyval) : GatewayResult :=
  match r.1 with
  | Replied => Ok r.2
  | ProbeFailed => Failed ConnectionError r.2
  | EmptyReply => Failed EmptyResponse r.2
  | BadStatus => Failed UpstreamError r.2
  | TimedOut => Failed Timeout r.2
  | ConnectionLost => Failed ConnectionError r.2
  | NetworkError => Failed ConnectionError r.2
  | Unexpected => Failed Internal r.2
  end.

Definition is_Ok (g : GatewayResult) : bool :=
  match g with Ok _ => true | Failed _ _ => false end.

Definition is_Failed (g : GatewayResult) : bool :=
  match g with Ok _ => false | Failed _ _ => true end.

(** The one entry a call can append. *)
Definition new_entry (w : world) (user_input : pystr) (v : pyval) (st : pystate)
  : Exchange :=
  {| user := user_input; bot := v; timestamp := clock w (ticks st) |}.

(** The call returned at line 72. *)
Definition replied (r : res (site * pyval)) : bool :=
  match r with
  | Val (Replied, _) => true
  | _ => false
  end.

(** What the probe of [test_ollama_connection] answers in a world. *)
Definition probe (w : world) : bool :=
  match http_get w tags_url with
  | Val response => status_code response =? 200
  | Exc _ => false
  end.

(** Every exception the generation call or the reading of its answer
    ([json()], [text]) raises for this query is an [Exception]. *)
Definition faults_are_Exceptions (w : world) (self : MedicalChatbot) (user_input : pystr)
  : bool :=
  match http_post w (ollama_url self) (make_payload self user_input) with
  | Exc e => is_Exception e
  | Val response =>
      match json response with Exc e => is_Exception e | Val _ => true end
      && match text response with Exc e => is_Exception e | Val _ => true end
  end.

(** The messages that are fixed texts of the source, per return site; the
    status and the model name are the only parameters. *)
Definition template (s : site) (status : Z) (model_name : pystr) : option pystr :=
  match s with
  | ProbeFailed => Some msg_probe_failed
  | EmptyReply => Some msg_empty_reply
  | BadStatus => Some (msg_bad_status status model_name)
  | TimedOut => Some msg_timed_out
  | ConnectionLost => Some msg_connection_lost
  | Unexpected => Some msg_unexpected
  | NetworkError => None
  | Replied => None
  end.

(** A sequence of calls of [process_medical_query] on one chatbot, each in
    its own world; an exception of one call does not stop the next. *)
Fixpoint run_queries (self : MedicalChatbot) (qs : list (world * pystr)) (st : pystate)
  : list (res (site * pyval)) * pystate :=
  match qs with
  | [] => ([], st)
  | (w, user_input) :: qs' =>
      let r := process_medical_query w self user_input st in
      let rs := run_queries self qs' r.2 in
      (r.1 :: rs.1, rs.2)
  end.

(** The inputs of the calls that returned at line 72, in call order. *)
Fixpoint replied_inputs (qs : list (world * pystr)) (rs : list (res (site * pyval)))
  : list pystr :=
  match qs, rs with
  | (_, user_input) :: qs', r :: rs' =>
      if replied r then user_input :: replied_inputs qs' rs'
      else replied_inputs qs' rs'
  | _, _ => []
  end.

(** ** Concrete bots, states and worlds *)

Definition empty_state : pystate := {| heap := ∅; calls := []; ticks := 0 |}.

(** The state after [medical_bot = MedicalChatbot()]. *)
Definition medical_bot0 : MedicalChatbot :=
  {| model := default_model_name;
     ollama_url := lit "http://localhost:11434/api/generate";
     conversation_history := 1%positive |}.

Definition state0 : pystate :=
  {| heap := {[ 1%positive := [] ]}; calls := []; ticks := 0 |}.

Definition connection_refused : exn :=
  {| is_Timeout := false; is_ConnectionError := true; is_RequestException := true;
     is_Exception := true; exn_str := lit "Connection refused";
     exn_printable := eq_refl |}.

(** [requests.exceptions.TooManyRedirects], a [RequestException]. *)
Definition too_many_redirects : exn :=
  {| is_Timeout := false; is_ConnectionError := false; is_RequestException := true;
     is_Exception := true; exn_str := lit "Exceeded 30 redirects.";
     exn_printable := eq_refl |}.

(** [requests.exceptions.JSONDecodeError], a [RequestException] since
    requests 2.27. *)
Definition json_decode_error : exn :=
  {| is_Timeout := false; is_ConnectionError := false; is_RequestException := true;
     is_Exception := true; exn_str := lit "Expecting value: line 1 column 1 (char 0)";
     exn_printable := eq_refl |}.

Definition tags_response : Response :=
  {| status_code := 200; text := Val (lit "{}"); json := Val (PDict []) |}.

Definition iso_clock (n : nat) : pystr :=
  lit "2024-01-01T00:00:0" ++ str_int (Z.of_nat n).

(** The server is not running. *)
Definition world_down : world :=
  {| http_get := fun _ => Exc connection_refused;
     http_post := fun _ _ => Exc connection_refused;
     clock := iso_clock |}.

(** The server redirects the generation call for ever. *)
Definition world_redirecting : world :=
  {| http_get := fun _ => Val tags_response;
     http_post := fun _ _ => Exc too_many_redirects;
     clock := iso_clock |}.

(** The server answers the generation call with [r]. *)
Definition world_answering (r : Response) : world :=
  {| http_get := fun _ => Val tags_response;
     http_post := fun _ _ => Val r;
     clock := iso_clock |}.

Definition reply_with (status : Z) (answer : pystr) : Response :=
  {| status_code := status; text := Val answer;
     json := Val (PDict [(lit "response", PStr answer)]) |}.

Definition html_response : Response :=
  {| status_code := 200; text := Val (lit "<html>"); json := Exc json_decode_error |}.

Definition cold_answer : pystr :=
  lit "Take fluids and rest. Disclaimer: consult a doctor.".

(** The state after one answered question. *)
Definition state1 : pystate :=
  (process_medical_query (world_answering (reply_with 200 cold_answer))
     medical_bot0 (lit "I have a cold") state0).2.

Definition cold_entry : Exchange :=
  {| user := lit "I have a cold"; bot := PStr cold_answer; timestamp := iso_clock 0 |}.

(** The status the generation call answered with, if it answered. *)
Definition answered_status (w : world) (self : MedicalChatbot) (user_input : pystr) : Z :=
  match http_post w (ollama_url self) (make_payload self user_input) with
  | Val response => status_code response
  | Exc _ => 0
  end.

(** [e] is the exception the generation call, or the reading of its
    answer ([json()], [text]), raised. *)
Definition caught (w : world) (self : MedicalChatbot) (user_input : pystr) (e : exn)
  : Prop :=
  http_post w (ollama_url self) (make_payload self user_input) = Exc e
  \/ exists response,
       http_post w (ollama_url self) (make_payload self user_input) = Val response
       /\ (json response = Exc e \/ text response = Exc e).


(** ** The diagnostic routes *)

(** [for item in v]: the items the iteration yields. *)
Definition py_iter (v : pyval) : Py (list pyval) :=
  match v with
  | PList l => ret l
  | PDict d => ret (List.map (fun kv => PStr kv.1) d)
  | PStr x => ret (List.map (fun c => PStr [c]) x)
  | _ => raise (builtin_error ("'" ++ type_name_text v ++ "' object is not iterable")%string)
  end.

(** [[model.get('name', '') for model in items]] *)
Fixpoint model_names (items : list pyval) : Py (list pyval) :=
  match items with
  | [] => ret []
  | item :: items' =>
      name <- py_get item (lit "name") (PStr []) ;;
      names <- model_names items' ;;
      ret (name :: names)
  end.

(** The two lines [health_check] and [test_ollama] share:
    [models_data = response.json()] and
    [models = [model.get('name', '') for model in models_data.get('models', [])]]. *)
Definition list_models (response : Response) : Py (list pyval) :=
  models_data <- response_json response ;;
  listed <- py_get models_data (lit "models") (PList []) ;;
  items <- py_iter listed ;;
  model_names items.

(** [x == v] for a string [x]: only an equal string is equal. *)
Definition str_eq (x : pystr) (v : pyval) : bool :=
  match v with
  | PStr y => bool_decide (x = y)
  | _ => false
  end.

(** [x in l] for a string [x] and a list [l]. *)
Definition str_in (x : pystr) (l : list pyval) : bool := existsb (str_eq x) l.

(** [health_check]; the pair is ([ollama_status], [models]). *)
Definition health_check (w : world) (medical_bot : MedicalChatbot) : Py HttpResponse :=
  found <-
    try_except
      (response <- requests_get w tags_url 5 ;;
       let ollama_status :=
         if status_code response =? 200 then lit "connected" else lit "disconnected" in
       if status_code response =? 200 then
         models <- list_models response ;;
         ret (ollama_status, models)
       else ret (ollama_status, []))
      (fun e => if is_Exception e then ret (lit "disconnected", []) else raise e) ;;
  stamp <- now_isoformat w ;;
  ret {| body := PDict [(lit "status", PStr (lit "healthy"));
                        (lit "ollama", PStr found.1);
                        (lit "available_models", PList found.2);
                        (lit "current_model", PStr (model medical_bot));
                        (lit "timestamp", PStr stamp)];
         status := 200 |}.

(** [test_ollama] *)
Definition test_ollama (w : world) (medical_bot : MedicalChatbot) : Py HttpResponse :=
  try_except
    (response <- requests_get w tags_url 5 ;;
     if status_code response =? 200 then
       models <- list_models response ;;
       ret {| body := PDict [(lit "status", PStr (lit "success"));
                             (lit "message", PStr (lit "Ollama is running and accessible"));
                             (lit "available_models", PList models);
                             (lit "current_model", PStr (model medical_bot));
                             (lit "model_available",
                              PBool (str_in (model medical_bot) models))];
              status := 200 |}
     else
       ret {| body := PDict [(lit "status", PStr (lit "error"));
                             (lit "message",
                              PStr (lit "Ollama returned status "
                                    ++ str_int (status_code response)))];
              status := 200 |})
    (fun e =>
       if is_ConnectionError e then
         ret {| body := PDict [(lit "status", PStr (lit "error"));
                               (lit "message",
                                PStr (lit "Cannot connect to Ollama. Make sure it's running with: ollama serve"))];
                status := 200 |}
       else if is_Exception e then
         ret {| body := PDict [(lit "status", PStr (lit "error"));
                               (lit "message",
                                PStr (lit "Error testing Ollama: " ++ exn_str e))];
                status := 200 |}
       else raise e).

(** ** Reading the answers of the routes *)

(** A field of the JSON object a route answered with; nothing when the
    route raised. *)
Definition answer_field (k : string) (r : res HttpResponse * pystate) : option pyval :=
  match r.1 with
  | Val a => match body a with PDict d => dict_lookup (lit k) d | _ => None end
  | Exc _ => None
  end.

(** What [list_models] gives for a response; it reads no state. *)
Definition listed (response : Response) : res (list pyval) :=
  (list_models response empty_state).1.

(** The name [model_names] takes from one entry of the listing, when the
    entry is an object. *)
Definition name_of (item : pyval) : option pyval :=
  match item with
  | PDict d => Some (default (PStr []) (dict_lookup (lit "name") d))
  | _ => None
  end.

(** The answers of the calls that returned at line 72, in call order. *)
Fixpoint replied_answers (rs : list (res (site * pyval))) : list pyval :=
  match rs with
  | Val (Replied, v) :: rs' => v :: replied_answers rs'
  | _ :: rs' => replied_answers rs'
  | [] => []
  end.

(** The exception of [request.get_json()], if any, is an [Exception]. *)
Definition request_fault_is_Exception (get_json : res pyval) : bool :=
  match get_json with
  | Exc e => is_Exception e
  | Val _ => true
  end.

(** The exception of the probe's GET or of reading its answer, if any, is
    an [Exception]. *)
Definition tags_faults_are_Exceptions (w : world) : bool :=
  match http_get w tags_url with
  | Exc e => is_Exception e
  | Val response =>
      match listed response with
      | Exc e => is_Exception e
      | Val _ => true
      end
  end.

Definition is_dict (v : pyval) : bool :=
  match v with PDict _ => true | _ => false end.

Definition is_str (v : pyval) : bool :=
  match v with PStr _ => true | _ => false end.

(** [requests.exceptions.ConnectTimeout]: a [ConnectionError] and a
    [Timeout]. *)
Definition connect_timeout : exn :=
  {| is_Timeout := true; is_ConnectionError := true; is_RequestException := true;
     is_Exception := true; exn_str := lit "Connection to localhost timed out.";
     exn_printable := eq_refl |}.

(** The server lists the models [names] and answers the generation call
    with [r]. *)
Definition world_listing (names : list pystr) (r : Response) : world :=
  {| http_get := fun _ =>
       Val {| status_code := 200; text := Val (lit "{...}");
              json := Val (PDict [(lit "models",
                                   PList (List.map (fun n => PDict [(lit "name", PStr n)])
                                            names))]) |};
     http_post := fun _ _ => Val r;
     clock := iso_clock |}.

(** The generation call fails with [e]. *)
Definition world_failing (e : exn) : world :=
  {| http_get := fun _ => Val tags_response;
     http_post := fun _ _ => Exc e;
     clock := iso_clock |}.

(** The generation call answers 200 with [{"response": v}]. *)
Definition reply_value (v : pyval) : Response :=
  {| status_code := 200; text := Val (lit "{...}");
     json := Val (PDict [(lit "response", v)]) |}.

(** The generation call answers 200 with the JSON list [[]]. *)
Definition list_body_response : Response :=
  {| status_code := 200; text := Val (lit "[]"); json := Val (PList []) |}.

(** The tags endpoint answers with [r]; no generation is possible. *)
Definition world_tags (r : Response) : world :=
  {| http_get := fun _ => Val r;
     http_post := fun _ _ => Exc connection_refused;
     clock := iso_clock |}.



Definition cold_request : res pyval :=
  Val (PDict [(lit "message", PStr (lit " I have a cold "))]).

Ltac py_unfold :=
  unfold process_medical_query, test_ollama_connection, query_handlers,
    requests_get, requests_post, response_json, response_text, py_get, py_strip,
    py_print, now_isoformat, list_append, get_conversation_history,
    try_except, bind, ret, raise in *.

Ltac routes_unfold :=
  unfold chat, health_check, test_ollama, py_slice_to, py_iter in *; py_unfold.

Ltac chat_answered := do 2 eexists; split; [reflexivity | tauto].

(** * Properties *)

(** ** Strings *)

Lemma lstrip_blank (x : pystr) : forallb isspace x = true -> lstrip x = [].
Proof.
  induction x as [|c x IH]; simpl; [reflexivity|].
  intros H. apply andb_prop in H as [Hc Hx]. rewrite Hc. auto.
Qed.

Lemma lstrip_nil_blank (x : pystr) : lstrip x = [] -> forallb isspace x = true.
Proof.
  induction x as [|c x IH]; simpl; [reflexivity|].
  destruct (isspace c); [auto | discriminate].
Qed.

(** The text left by [lstrip] is empty or starts with a character that is
    not white space, so stripping it on the right leaves that character. *)
Lemma lstrip_head (x : pystr) :
  lstrip x = [] \/ exists c y, lstrip x = c :: y /\ isspace c = false.
Proof.
  induction x as [|c x IH]; simpl; [by left|].
  destruct (isspace c) eqn:Hc; [exact IH | right; eauto].
Qed.

Lemma forallb_rev (f : N -> bool) (x : pystr) : forallb f (rev x) = forallb f x.
Proof.
  induction x as [|c x IH]; simpl; [reflexivity|].
  rewrite forallb_app, IH. simpl. rewrite andb_true_r. apply andb_comm.
Qed.

(** A string is blank after trimming exactly when all of it is white space. *)
Lemma strip_blank_iff (x : pystr) : strip x = [] <-> forallb isspace x = true.
Proof.
  unfold strip, rstrip. split.
  - intros H.
    assert (Hl : lstrip (rev (lstrip x)) = []).
    { apply (f_equal (@rev N)) in H. rewrite rev_involutive in H. exact H. }
    apply lstrip_nil_blank in Hl. rewrite forallb_rev in Hl.
    destruct (lstrip_head x) as [E | (c & y & E & Hc)].
    + by apply lstrip_nil_blank.
    + rewrite E in Hl. simpl in Hl. rewrite Hc in Hl. discriminate.
  - intros H. rewrite (lstrip_blank x H). reflexivity.
Qed.

(** ** The monad and the probe *)

(** [test_ollama_connection] makes the one GET call, answers [probe w] and
    never raises. *)
Lemma test_ollama_connection_run (w : world) (self : MedicalChatbot) (st : pystate) :
  test_ollama_connection w self st =
    (Val (probe w),
     {| heap := heap st; calls := calls st ++ [GET tags_url 5]; ticks := ticks st |}).
Proof.
  py_unfold. unfold probe. by destruct (http_get w tags_url).
Qed.

Lemma history_append (self : MedicalChatbot) (st : pystate) (x : Exchange) c t :
  history self {| heap := <[conversation_history self := history self st ++ [x]]> (heap st);
                  calls := c; ticks := t |}
  = history self st ++ [x].
Proof. unfold history, deref. simpl. apply lookup_total_insert_eq. Qed.

(** ** Printing *)

(** An ASCII literal has no surrogate. *)
Lemma printable_lit (x : string) : printable (lit x) = true.
Proof. exact (exn_printable (builtin_error x)). Qed.

Lemma printable_app (a b : pystr) : printable (a ++ b) = printable a && printable b.
Proof. unfold printable. apply forallb_app. Qed.

Lemma printable_str_int (n : Z) : printable (str_int n) = true.
Proof. apply printable_lit. Qed.

Lemma py_print_ok (x : pystr) (st : pystate) :
  printable x = true -> py_print x st = (Val tt, st).
Proof. unfold py_print. by intros ->. Qed.

Lemma py_print_fails (x : pystr) (st : pystate) :
  printable x = false -> py_print x st = (Exc (UnicodeEncodeError x), st).
Proof. unfold py_print. by intros ->. Qed.

(** A text after a printable mark is printable when the text is. *)
Lemma printable_marked (mark : N) (label : string) (x : pystr) :
  is_surrogate mark = false ->
  printable ([mark] ++ lit label ++ x) = printable x.
Proof.
  intros Hm. rewrite !printable_app, printable_lit. simpl. by rewrite Hm.
Qed.

(** The text of an exception after a printable mark is printable. *)
Lemma printable_exn (mark : N) (label : string) (e : exn) :
  is_surrogate mark = false ->
  printable ([mark] ++ lit label ++ exn_str e) = true.
Proof. intros Hm. rewrite (printable_marked _ _ _ Hm). apply exn_printable. Qed.

(** The [except] clauses without the print, which never fails there. *)
Lemma query_handlers_run (e : exn) (st : pystate) :
  query_handlers e st =
    if is_Timeout e then (Val (TimedOut, PStr msg_timed_out), st)
    else if is_ConnectionError e then (Val (ConnectionLost, PStr msg_connection_lost), st)
    else if is_RequestException e then (Val (NetworkError, PStr (msg_network_error e)), st)
    else if is_Exception e then (Val (Unexpected, PStr msg_unexpected), st)
    else (Exc e, st).
Proof.
  unfold query_handlers, bind, ret, raise.
  destruct (is_Timeout e), (is_ConnectionError e), (is_RequestException e),
    (is_Exception e); try reflexivity;
    by rewrite py_print_ok by (by apply printable_exn).
Qed.

(** The clauses store nothing, call nothing and never return at line 72. *)
Lemma query_handlers_outcome (e : exn) (st : pystate) :
  exists o, query_handlers e st = (o, st)
            /\ match o with Val (Replied, _) => False | _ => True end.
Proof.
  rewrite query_handlers_run.
  destruct (is_Timeout e); [by eexists|].
  destruct (is_ConnectionError e); [by eexists|].
  destruct (is_RequestException e); [by eexists|].
  destruct (is_Exception e); by eexists.
Qed.

(** An [Exception] is turned into a message. *)
Lemma query_handlers_return_early (e : exn) (st : pystate) :
  is_Exception e = true ->
  exists s m, query_handlers e st = (Val (s, PStr m), st) /\ s <> Replied.
Proof.
  intros He. rewrite query_handlers_run.
  destruct (is_Timeout e); [by eexists _, _|].
  destruct (is_ConnectionError e); [by eexists _, _|].
  destruct (is_RequestException e); [by eexists _, _|].
  rewrite He. by eexists _, _.
Qed.

(** What the handlers make of a [UnicodeEncodeError]. *)
Lemma query_handlers_encode_error (x : pystr) (st : pystate) :
  query_handlers (UnicodeEncodeError x) st = (Val (Unexpected, PStr msg_unexpected), st).
Proof. by rewrite query_handlers_run. Qed.

Ltac query_handled e :=
  match goal with
  | |- context [query_handlers e ?st] =>
      let o := fresh "o" in
      let Ho := fresh "Ho" in
      let E := fresh "E" in
      destruct (query_handlers_outcome e st) as (o & E & Ho); rewrite E;
      destruct o as [[[] ?]|]; simpl in *
  end.

Ltac query_returned :=
  do 3 eexists; split; [reflexivity|]; split; [reflexivity | first [done | eauto]].

Ltac query_caught e He :=
  match goal with
  | |- context [query_handlers e ?st] =>
      let s := fresh "s" in
      let m := fresh "m" in
      let E := fresh "E" in
      let Hs := fresh "Hs" in
      destruct (query_handlers_return_early e st He) as (s & m & E & Hs); rewrite E;
      exists s, (PStr m); eexists; split; [reflexivity|];
      destruct s; try done; split; eauto
  end.

(** [process_medical_query], path by path. The print of line 47 fails for
    a model name that cannot be printed, the print of line 56 never fails,
    the print of line 75 fails for a body text that cannot be printed; each
    failure ends in the clause of line 84. *)
Lemma process_medical_query_run (w : world) (self : MedicalChatbot)
    (user_input : pystr) (st : pystate) :
  let st1 := {| heap := heap st; calls := calls st ++ [GET tags_url 5];
                ticks := ticks st |} in
  let st2 := {| heap := heap st;
                calls := (calls st ++ [GET tags_url 5])
                         ++ [POST (ollama_url self) (make_payload self user_input) 60];
                ticks := ticks st |} in
  let unexpected (st' : pystate) := (Val (Unexpected, PStr msg_unexpected), st') in
  process_medical_query w self user_input st =
    if negb (probe w) then (Val (ProbeFailed, PStr msg_probe_failed), st1)
    else if negb (printable (model self)) then unexpected st1
    else
      match http_post w (ollama_url self) (make_payload self user_input) with
      | Exc e => query_handlers e st2
      | Val r =>
          if status_code r =? 200 then
            match json r with
            | Exc e => query_handlers e st2
            | Val (PDict d) =>
                let v := default (PStr []) (dict_lookup (lit "response") d) in
                if truthy v then
                  (Val (Replied, v),
                   {| heap := <[conversation_history self :=
                                  history self st ++ [new_entry w user_input v st]]>
                                (heap st);
                      calls := calls st2; ticks := S (ticks st) |})
                else (Val (EmptyReply, PStr msg_empty_reply), st2)
            | Val _ => unexpected st2
            end
          else
            match text r with
            | Exc e => query_handlers e st2
            | Val x =>
                if printable x then
                  (Val (BadStatus, PStr (msg_bad_status (status_code r) (model self))),
                   st2)
                else unexpected st2
            end
      end.
Proof.
  unfold process_medical_query, bind at 1. rewrite test_ollama_connection_run.
  destruct (probe w); cbn [negb]; [|reflexivity].
  unfold try_except, bind at 1. cbv beta iota zeta.
  pose proof (printable_marked 0x1F504%N " Sending request to Ollama with model: "
                (model self) eq_refl) as Hm.
  destruct (printable (model self)) eqn:Hmodel; cbn [negb].
  - rewrite (py_print_ok _ _ Hm).
    unfold bind at 1, requests_post. cbv beta iota zeta.
    destruct (http_post w (ollama_url self) (make_payload self user_input)) as [r|e];
      [|reflexivity].
    unfold bind at 1.
    rewrite py_print_ok
      by (rewrite (printable_marked 0x1F4E1%N " Ollama response status: " _ eq_refl);
          apply printable_str_int).
    destruct (status_code r =? 200).
    + unfold bind at 1, response_json. cbv beta iota zeta.
      destruct (json r) as [result|e]; [|reflexivity].
      unfold bind at 1, py_get.
      destruct result; try (unfold raise; by rewrite query_handlers_run).
      unfold ret. simpl.
      destruct (dict_lookup (lit "response") d) as [v|]; simpl; [|reflexivity].
      by destruct (truthy v).
    + unfold bind at 1, response_text. cbv beta iota zeta.
      destruct (text r) as [x|e]; [|reflexivity].
      unfold bind at 1.
      assert (Hx : printable ([0x274C%N] ++ lit " Ollama error: "
                               ++ (if truthy (PStr x) then x else lit "Unknown error"))
                   = printable x).
      { rewrite (printable_marked 0x274C%N " Ollama error: " _ eq_refl).
        by destruct x. }
      destruct (printable x) eqn:Hp.
      * by rewrite (py_print_ok _ _ Hx).
      * rewrite (py_print_fails _ _ Hx). apply query_handlers_encode_error.
  - rewrite (py_print_fails _ _ Hm). apply query_handlers_encode_error.
Qed.

Ltac query_paths :=
  rewrite process_medical_query_run; cbv zeta;
  repeat first [rewrite query_handlers_run | case_match].

(** The store after a call: the entry is appended when the call returned
    at line 72, and nothing is touched otherwise, also when the call
    raises. *)
Lemma process_medical_query_heap (w : world) (self : MedicalChatbot)
    (user_input : pystr) (st : pystate) :
  let r := process_medical_query w self user_input st in
  match r.1 with
  | Val (Replied, v) =>
      truthy v = true /\
      heap r.2 = <[conversation_history self :=
                     history self st ++ [new_entry w user_input v st]]> (heap st)
  | _ => heap r.2 = heap st
  end.
Proof.
  rewrite process_medical_query_run. cbv zeta.
  destruct (probe w); cbn [negb]; [|reflexivity].
  destruct (printable (model self)); cbn [negb]; [|reflexivity].
  destruct (http_post w (ollama_url self) (make_payload self user_input)) as [r|e];
    [|by query_handled e].
  destruct (status_code r =? 200).
  - destruct (json r) as [result|e]; [|by query_handled e].
    destruct result; try reflexivity.
    destruct (truthy _) eqn:Ht; [|reflexivity].
    by split.
  - destruct (text r) as [x|e]; [|by query_handled e].
    by destruct (printable x).
Qed.

Lemma history_heap (self : MedicalChatbot) (st st' : pystate) :
  heap st' = heap st -> history self st' = history self st.
Proof. unfold history. by intros ->. Qed.

Lemma history_insert (self : MedicalChatbot) (st st' : pystate) (l : list Exchange) :
  heap st' = <[conversation_history self := l]> (heap st) -> history self st' = l.
Proof. unfold history, deref. intros ->. apply lookup_total_insert_eq. Qed.

Lemma not_self_append {A} (l : list A) (x : A) : l <> l ++ [x].
Proof.
  intros E. apply (f_equal length) in E. rewrite length_app in E. simpl in E. lia.
Qed.

(** The conversation list after a call, in one equation. *)
Lemma process_medical_query_history (w : world) (self : MedicalChatbot)
    (user_input : pystr) (st : pystate) :
  let r := process_medical_query w self user_input st in
  history self r.2 =
    history self st ++
      match r.1 with
      | Val (Replied, v) => [new_entry w user_input v st]
      | _ => []
      end.
Proof.
  intros r. pose proof (process_medical_query_heap w self user_input st) as H.
  fold r in H. simpl in H.
  destruct (r.1) as [[s v]|e].
  - destruct s; simpl in H;
      try (rewrite (history_heap self st (r.2) H); by rewrite app_nil_r).
    destruct H as [_ H]. by apply (history_insert self st).
  - rewrite (history_heap self st (r.2) H). by rewrite app_nil_r.
Qed.

(** C1. A call of [process_medical_query] appends an entry to
    [conversation_history] if and only if it returns the model's answer
    (the spec's Ok) and that answer is non-empty; the entry holds the input,
    the answer and the time stamp. Every other outcome, each of the error
    messages and also a propagated exception, leaves the whole store as it
    was. *)
Theorem log_appended_iff_replied (w : world) (self : MedicalChatbot)
    (user_input : pystr) (st : pystate) :
  let r := process_medical_query w self user_input st in
  ((exists x, history self r.2 = history self st ++ [x]) <->
   (exists s v, r.1 = Val (s, v) /\ gateway_result (s, v) = Ok v /\ truthy v = true))
  /\ (forall v, r.1 = Val (Replied, v) ->
        history self r.2 = history self st ++ [new_entry w user_input v st])
  /\ (replied r.1 = false -> heap r.2 = heap st).
Proof.
  intros r.
  pose proof (process_medical_query_heap w self user_input st) as Hh.
  pose proof (process_medical_query_history w self user_input st) as Hl.
  fold r in Hh, Hl. simpl in Hh, Hl.
  split; [split|split].
  - intros [x Hx]. destruct (r.1) as [[s v]|e].
    + destruct s;
        try (rewrite Hl, app_nil_r in Hx; by apply not_self_append in Hx).
      exists Replied, v. by destruct Hh.
    + rewrite Hl, app_nil_r in Hx. by apply not_self_append in Hx.
  - intros (s & v & E & Hok & Hv). rewrite E in Hl.
    destruct s; try discriminate. eauto.
  - intros v E. by rewrite E in Hl.
  - intros Hr. destruct (r.1) as [[s v]|e]; [|exact Hh].
    by destruct s.
Qed.

(** ** The outcomes of [process_medical_query] *)

Lemma probe_answer (w : world) (self : MedicalChatbot) (st : pystate) (b : bool) :
  (test_ollama_connection w self st).1 = Val b -> probe w = b.
Proof. rewrite test_ollama_connection_run. simpl. congruence. Qed.

(** C2. For every input string and every behaviour of the upstream server
    (probe refused, any status, a body that does not parse or has another
    shape, a timeout, any other exception derived from [Exception]),
    [process_medical_query] returns a value and raises nothing; the value
    is either the model's answer (Ok) or an error message (Failed), never
    both, and an error is always a string. *)
Theorem query_always_returns (w : world) (self : MedicalChatbot)
    (user_input : pystr) (st : pystate) :
  faults_are_Exceptions w self user_input = true ->
  exists s v st',
    process_medical_query w self user_input st = (Val (s, v), st')
    /\ xorb (is_Ok (gateway_result (s, v))) (is_Failed (gateway_result (s, v))) = true
    /\ (is_Failed (gateway_result (s, v)) = true -> exists m, v = PStr m).
Proof.
  unfold faults_are_Exceptions. intros Hf.
  rewrite process_medical_query_run. cbv zeta.
  destruct (probe w); cbn [negb]; [|query_returned].
  destruct (printable (model self)); cbn [negb]; [|query_returned].
  destruct (http_post w (ollama_url self) (make_payload self user_input)) as [r|e];
    [|query_caught e Hf].
  apply andb_prop in Hf as [Hj Ht].
  destruct (status_code r =? 200).
  - destruct (json r) as [result|e]; [|query_caught e Hj].
    destruct result; try query_returned.
    destruct (truthy _); query_returned.
  - destruct (text r) as [x|e]; [|query_caught e Ht].
    destruct (printable x); query_returned.
Qed.

(** What the hypothesis of [query_always_returns] excludes: an exception
    outside [Exception] (an interrupt of the process, not an answer of the
    server) passes through every clause. *)
Lemma non_Exception_propagates (w : world) (self : MedicalChatbot)
    (user_input : pystr) (st : pystate) (e : exn) :
  probe w = true ->
  printable (model self) = true ->
  http_post w (ollama_url self) (make_payload self user_input) = Exc e ->
  is_Timeout e = false -> is_ConnectionError e = false ->
  is_RequestException e = false -> is_Exception e = false ->
  (process_medical_query w self user_input st).1 = Exc e.
Proof.
  intros Hp Hm Hr H1 H2 H3 H4. rewrite process_medical_query_run. cbv zeta.
  rewrite Hp, Hm, Hr, query_handlers_run. cbn [negb].
  by rewrite H1, H2, H3, H4.
Qed.

(** C3. When [test_ollama_connection] answers [False],
    [process_medical_query] returns the connection-error message, which
    tells the user to make sure the server is running; the only upstream
    call made is the probe itself, so no generation request is sent, and
    the store is untouched. *)
Theorem probe_failure_short_circuits (w : world) (self : MedicalChatbot)
    (user_input : pystr) (st : pystate) :
  (test_ollama_connection w self st).1 = Val false ->
  let r := process_medical_query w self user_input st in
  r.1 = Val (ProbeFailed, PStr msg_probe_failed)
  /\ gateway_result (ProbeFailed, PStr msg_probe_failed)
     = Failed ConnectionError (PStr msg_probe_failed)
  /\ contains (lit "Please make sure Ollama is running") msg_probe_failed
  /\ calls r.2 = calls st ++ [GET tags_url 5]
  /\ (forall url payload timeout, POST url payload timeout ∉ drop (length (calls st)) (calls r.2))
  /\ heap r.2 = heap st.
Proof.
  intros Hp%probe_answer r. subst r.
  unfold process_medical_query, bind. rewrite test_ollama_connection_run, Hp. simpl.
  repeat split.
  - exists ([0x274C%N] ++ lit " Cannot connect to Ollama server. "),
      (lit " with 'ollama serve'").
    reflexivity.
  - intros url payload timeout. rewrite drop_app_length.
    intros Hin%list_elem_of_singleton. discriminate.
Qed.

(** The status and the model name sit in the bad-status message. *)
Lemma msg_bad_status_contents (status : Z) (model_name : pystr) :
  contains (lit "(Status " ++ str_int status ++ lit ")") (msg_bad_status status model_name)
  /\ contains (lit "model '" ++ model_name ++ lit "'") (msg_bad_status status model_name)
  /\ contains (lit "ollama pull " ++ model_name) (msg_bad_status status model_name).
Proof.
  unfold msg_bad_status. repeat split.
  - exists ([0x1F527%N] ++ lit " Ollama server error "),
      (lit ". Make sure the model '" ++ model_name
       ++ lit "' is installed with: ollama pull " ++ model_name).
    by rewrite <- !app_assoc.
  - exists ([0x1F527%N] ++ lit " Ollama server error (Status " ++ str_int status
            ++ lit "). Make sure the "),
      (lit " is installed with: ollama pull " ++ model_name).
    by rewrite <- !app_assoc.
  - exists ([0x1F527%N] ++ lit " Ollama server error (Status " ++ str_int status
            ++ lit "). Make sure the model '" ++ model_name
            ++ lit "' is installed with: "), [].
    rewrite <- !app_assoc. by rewrite app_nil_r.
Qed.

Lemma contains_app_l (a b x : pystr) : contains (a ++ b) x -> contains a x.
Proof. intros (pre & post & ->). exists pre, (b ++ post). by rewrite <- app_assoc. Qed.

Lemma contains_app_r (a b x : pystr) : contains (a ++ b) x -> contains b x.
Proof. intros (pre & post & ->). exists (pre ++ a), post. by rewrite <- !app_assoc. Qed.

(** Any status other than 200 is reported as a server error, when the
    model name and the text of the body can be printed. *)
Lemma bad_status_run (w : world) (self : MedicalChatbot) (user_input : pystr)
    (st : pystate) (r : Response) (x : pystr) :
  probe w = true ->
  printable (model self) = true ->
  http_post w (ollama_url self) (make_payload self user_input) = Val r ->
  status_code r <> 200 ->
  text r = Val x ->
  printable x = true ->
  process_medical_query w self user_input st =
    (Val (BadStatus, PStr (msg_bad_status (status_code r) (model self))),
     {| heap := heap st;
        calls := (calls st ++ [GET tags_url 5])
                 ++ [POST (ollama_url self) (make_payload self user_input) 60];
        ticks := ticks st |}).
Proof.
  intros Hp Hm Hr Hs Ht Hx. rewrite process_medical_query_run. cbv zeta.
  rewrite Hp, Hm, Hr, Ht, Hx. cbn [negb].
  apply Z.eqb_neq in Hs. by rewrite Hs.
Qed.

(** When the generation call answers with a status outside 200..299 and
    the model name and the text of the body can be printed,
    [process_medical_query] returns the server-error message (the spec's
    UpstreamError); the message contains the status received, the model
    name, and the hint to install the model with [ollama pull]. *)
Theorem bad_status_reported (w : world) (self : MedicalChatbot)
    (user_input : pystr) (st : pystate) (r : Response) (x : pystr) :
  (test_ollama_connection w self st).1 = Val true ->
  printable (model self) = true ->
  http_post w (ollama_url self) (make_payload self user_input) = Val r ->
  ~ (200 <= status_code r < 300) ->
  text r = Val x ->
  printable x = true ->
  let m := msg_bad_status (status_code r) (model self) in
  (process_medical_query w self user_input st).1 = Val (BadStatus, PStr m)
  /\ gateway_result (BadStatus, PStr m) = Failed UpstreamError (PStr m)
  /\ contains (str_int (status_code r)) m
  /\ contains (model self) m
  /\ contains (lit "ollama pull " ++ model self) m.
Proof.
  intros Hp%probe_answer Hm Hr Hs Ht Hx m.
  rewrite (bad_status_run w self user_input st r x Hp Hm Hr) by (lia || done).
  destruct (msg_bad_status_contents (status_code r) (model self)) as (H1 & H2 & H3).
  repeat split; try done.
  - eapply contains_app_l, contains_app_r, H1.
  - eapply contains_app_l, contains_app_r, H2.
Qed.

(** C4. The server answers the generation call with status 404 and a
    body whose text is a lone surrogate (as the bytes [+2AA-] declared as
    UTF-7 decode). The status is outside 200..299, but [print(error_text)]
    of line 75, inside the [try], raises [UnicodeEncodeError]; the clause of
    line 84 catches it and the caller gets the general message of line 86,
    with neither the status nor the model name, instead of the server-error
    message of line 76. *)
Theorem bad_status_unprintable_body :
  let r := {| status_code := 404; text := Val [0xD800%N];
              json := Exc json_decode_error |} in
  let w := world_answering r in
  let q := process_medical_query w medical_bot0 (lit "I have a cold") state0 in
  (test_ollama_connection w medical_bot0 state0).1 = Val true
  /\ http_post w (ollama_url medical_bot0)
       (make_payload medical_bot0 (lit "I have a cold")) = Val r
  /\ ~ (200 <= status_code r < 300)
  /\ q.1 = Val (Unexpected, PStr msg_unexpected)
  /\ gateway_result (Unexpected, PStr msg_unexpected)
     = Failed Internal (PStr msg_unexpected)
  /\ q.1 <> Val (BadStatus, PStr (msg_bad_status 404 (model medical_bot0))).
Proof.
  intros r w q. subst q.
  rewrite process_medical_query_run. cbv zeta.
  change (probe w) with true. change (printable (model medical_bot0)) with true.
  cbn [negb]. repeat split; try done.
  simpl. lia.
Qed.

(** With status 200 and a JSON object whose ['response'] is missing or
    false in Python's sense, the answer is the empty-response message. *)
Lemma empty_reply_run (w : world) (self : MedicalChatbot) (user_input : pystr)
    (st : pystate) (r : Response) (d : list (pystr * pyval)) :
  probe w = true ->
  printable (model self) = true ->
  http_post w (ollama_url self) (make_payload self user_input) = Val r ->
  status_code r = 200 ->
  json r = Val (PDict d) ->
  truthy (default (PStr []) (dict_lookup (lit "response") d)) = false ->
  process_medical_query w self user_input st =
    (Val (EmptyReply, PStr msg_empty_reply),
     {| heap := heap st;
        calls := (calls st ++ [GET tags_url 5])
                 ++ [POST (ollama_url self) (make_payload self user_input) 60];
        ticks := ticks st |}).
Proof.
  intros Hp Hm Hr Hs Hj Ht. rewrite process_medical_query_run. cbv zeta.
  rewrite Hp, Hm, Hr, Hs, Hj, Ht. reflexivity.
Qed.

(** C5, as the code has it. For a chatbot whose model name can be
    printed: when the generation call answers with status 200 and a JSON
    object whose ['response'] field is absent or the empty string,
    [process_medical_query] returns the empty-response message (the spec's
    EmptyResponse), which suggests asking the question differently; the
    store is untouched. *)
Theorem empty_reply_on_200 (w : world) (self : MedicalChatbot)
    (user_input : pystr) (st : pystate) (r : Response) (d : list (pystr * pyval)) :
  printable (model self) = true ->
  (test_ollama_connection w self st).1 = Val true ->
  http_post w (ollama_url self) (make_payload self user_input) = Val r ->
  status_code r = 200 ->
  json r = Val (PDict d) ->
  (dict_lookup (lit "response") d = None
   \/ dict_lookup (lit "response") d = Some (PStr [])) ->
  let q := process_medical_query w self user_input st in
  q.1 = Val (EmptyReply, PStr msg_empty_reply)
  /\ gateway_result (EmptyReply, PStr msg_empty_reply)
     = Failed EmptyResponse (PStr msg_empty_reply)
  /\ contains (lit "Try asking your question differently") msg_empty_reply
  /\ heap q.2 = heap st.
Proof.
  intros Hm Hp%probe_answer Hr Hs Hj Hd q. subst q.
  rewrite (empty_reply_run w self user_input st r d Hp Hm Hr Hs Hj)
    by (destruct Hd as [-> | ->]; reflexivity).
  repeat split.
  exists ([0x26A0%N; 0xFE0F%N] ++ lit " Received empty response from AI model. "), (lit ".").
  reflexivity.
Qed.

(** C5, counterexample. Status 201 is a 2xx status; with the empty
    ['response'] the call reports a server error, not an empty response. *)
Lemma empty_reply_201_counterexample :
  let r := reply_with 201 [] in
  let q := process_medical_query (world_answering r) medical_bot0 (lit "I have a cold") state0 in
  (test_ollama_connection (world_answering r) medical_bot0 state0).1 = Val true
  /\ http_post (world_answering r) (ollama_url medical_bot0)
       (make_payload medical_bot0 (lit "I have a cold")) = Val r
  /\ 200 <= status_code r < 300
  /\ json r = Val (PDict [(lit "response", PStr [])])
  /\ q.1 = Val (BadStatus, PStr (msg_bad_status 201 default_model_name))
  /\ q.1 <> Val (EmptyReply, PStr msg_empty_reply)
  /\ gateway_result (BadStatus, PStr (msg_bad_status 201 default_model_name))
     = Failed UpstreamError (PStr (msg_bad_status 201 default_model_name)).
Proof.
  repeat split; try reflexivity; try (vm_compute; congruence).
Qed.

(** With status 200 and a ['response'] that is true in Python's sense, the
    answer is returned as it is and recorded. *)
Lemma replied_run (w : world) (self : MedicalChatbot) (user_input : pystr)
    (st : pystate) (r : Response) (d : list (pystr * pyval)) (v : pyval) :
  probe w = true ->
  printable (model self) = true ->
  http_post w (ollama_url self) (make_payload self user_input) = Val r ->
  status_code r = 200 ->
  json r = Val (PDict d) ->
  dict_lookup (lit "response") d = Some v ->
  truthy v = true ->
  process_medical_query w self user_input st =
    (Val (Replied, v),
     {| heap := <[conversation_history self :=
                    history self st ++ [new_entry w user_input v st]]> (heap st);
        calls := (calls st ++ [GET tags_url 5])
                 ++ [POST (ollama_url self) (make_payload self user_input) 60];
        ticks := S (ticks st) |}).
Proof.
  intros Hp Hm Hr Hs Hj Hd Ht. rewrite process_medical_query_run. cbv zeta.
  rewrite Hp, Hm, Hr, Hs, Hj, Hd. simpl. by rewrite Ht.
Qed.

(** The values that are false in Python's sense. *)
Lemma falsy_values (v : pyval) :
  truthy v = false <->
  v = PNone \/ v = PBool false \/ v = PInt 0
  \/ (exists s, v = PFloat (S754_zero s))
  \/ v = PStr [] \/ v = PList [] \/ v = PDict [].
Proof.
  split.
  - destruct v as [|[]|n|f|x|l|d]; simpl; try discriminate; try tauto.
    + intros H. apply negb_false_iff, Z.eqb_eq in H. subst. tauto.
    + destruct f; try discriminate. intros _. do 3 right. left. by eexists.
    + destruct x; [tauto | discriminate].
    + destruct l; [tauto | discriminate].
    + destruct d; [tauto | discriminate].
  - intros [-> | [-> | [-> | [[s ->] | [-> | [-> | ->]]]]]]; reflexivity.
Qed.

(** C10, as the code has it. For a chatbot whose model name can be
    printed, when the generation call answers with status 200 and a JSON
    object: a ['response'] string that is not the empty string, in
    particular one of white space only, is returned unchanged (Ok) and its
    entry is appended; the empty-response message is returned exactly when
    the ['response'] field is absent or false in Python's sense, which the
    empty string is, and so are [null], [false], [0], [0.0], [[]] and
    [{}]. *)
Theorem whitespace_reply_is_returned (w : world) (self : MedicalChatbot)
    (user_input : pystr) (st : pystate) (r : Response) (d : list (pystr * pyval)) :
  printable (model self) = true ->
  (test_ollama_connection w self st).1 = Val true ->
  http_post w (ollama_url self) (make_payload self user_input) = Val r ->
  status_code r = 200 ->
  json r = Val (PDict d) ->
  let q := process_medical_query w self user_input st in
  let field := dict_lookup (lit "response") d in
  (forall x, field = Some (PStr x) -> x <> [] ->
     q.1 = Val (Replied, PStr x)
     /\ gateway_result (Replied, PStr x) = Ok (PStr x)
     /\ history self q.2 =
          history self st ++
            [{| user := user_input; bot := PStr x; timestamp := clock w (ticks st) |}])
  /\ ((exists m, q.1 = Val (EmptyReply, m)) <->
      (field = None
       \/ exists v, field = Some v
            /\ (v = PNone \/ v = PBool false \/ v = PInt 0
                \/ (exists s, v = PFloat (S754_zero s))
                \/ v = PStr [] \/ v = PList [] \/ v = PDict []))).
Proof.
  intros Hm Hp%probe_answer Hr Hs Hj q field. subst q field. split.
  - intros x Hd Hx.
    rewrite (replied_run w self user_input st r d (PStr x) Hp Hm Hr Hs Hj Hd)
      by (by destruct x).
    repeat split. apply history_append.
  - destruct (dict_lookup (lit "response") d) as [v|] eqn:Hd.
    + destruct (truthy v) eqn:Ht.
      * rewrite (replied_run w self user_input st r d v Hp Hm Hr Hs Hj Hd Ht).
        split; [intros [m [=]]|].
        intros [[=] | (v' & [= <-] & Hv)].
        apply falsy_values in Hv. congruence.
      * rewrite (empty_reply_run w self user_input st r d Hp Hm Hr Hs Hj)
          by (by rewrite Hd).
        split; [|by eexists]. intros _. right. exists v.
        split; [reflexivity | by apply falsy_values].
    + rewrite (empty_reply_run w self user_input st r d Hp Hm Hr Hs Hj)
        by (by rewrite Hd).
      split; [by left | by eexists].
Qed.

(** C10, counterexample. The answer [{"response": 0}]: the field is there
    and is not the empty string, and the call returns the empty-response
    message. *)
Lemma zero_reply_counterexample :
  let r := reply_value (PInt 0) in
  let q := process_medical_query (world_answering r) medical_bot0 (lit "I have a cold") state0 in
  (test_ollama_connection (world_answering r) medical_bot0 state0).1 = Val true
  /\ http_post (world_answering r) (ollama_url medical_bot0)
       (make_payload medical_bot0 (lit "I have a cold")) = Val r
  /\ status_code r = 200
  /\ json r = Val (PDict [(lit "response", PInt 0)])
  /\ dict_lookup (lit "response") [(lit "response", PInt 0)] = Some (PInt 0)
  /\ PInt 0 <> PStr []
  /\ q.1 = Val (EmptyReply, PStr msg_empty_reply)
  /\ gateway_result (EmptyReply, PStr msg_empty_reply)
     = Failed EmptyResponse (PStr msg_empty_reply).
Proof.
  repeat split; try reflexivity. discriminate.
Qed.

(** ** Sequences of calls *)

Lemma run_queries_length (self : MedicalChatbot) (qs : list (world * pystr)) (st : pystate) :
  length (run_queries self qs st).1 = length qs.
Proof.
  revert st. induction qs as [|[w u] qs IH]; intros st; simpl; [reflexivity|].
  by rewrite IH.
Qed.

(** The user texts of the conversation list after a sequence of calls:
    those it held before, then the inputs of the calls that returned the
    model's answer, in call order. *)
Lemma run_queries_users (self : MedicalChatbot) (qs : list (world * pystr)) (st : pystate) :
  let rs := run_queries self qs st in
  List.map user (history self rs.2)
  = List.map user (history self st) ++ replied_inputs qs rs.1.
Proof.
  revert st. induction qs as [|[w u] qs IH]; intros st; simpl.
  - by rewrite app_nil_r.
  - rewrite IH, process_medical_query_history, List.map_app, <- app_assoc.
    f_equal.
    destruct (process_medical_query w self u st).1 as [[s v]|e]; [|reflexivity].
    by destruct s.
Qed.

Lemma replied_inputs_length (qs : list (world * pystr)) (rs : list (res (site * pyval))) :
  length rs = length qs ->
  length (replied_inputs qs rs) = length (List.filter replied rs).
Proof.
  revert rs. induction qs as [|[w u] qs IH]; intros [|r rs]; simpl; try done.
  intros [= E]. destruct (replied r); simpl; by rewrite IH.
Qed.

(** C6. On a chatbot made by [__init__], after any sequence of calls of
    [process_medical_query], [get_conversation_history] gives a list with
    one entry per call that returned the model's answer, in call order,
    each with the input of its call as the ['user'] text; calls that
    returned an error message or raised add nothing. *)
Theorem history_round_trip (model_name : pystr) (st0 : pystate)
    (qs : list (world * pystr)) :
  exists self st1,
    MedicalChatbot_init model_name st0 = (Val self, st1)
    /\ let rs := run_queries self qs st1 in
       exists l,
         get_conversation_history self rs.2 = (Val l, rs.2)
         /\ List.map user (deref (heap rs.2) l) = replied_inputs qs rs.1
         /\ length (deref (heap rs.2) l) = length (List.filter replied rs.1).
Proof.
  do 2 eexists. split; [reflexivity|].
  set (self := {| model := model_name |}).
  set (st1 := {| heap := <[_ := []]> (heap st0) |}).
  intros rs. exists (conversation_history self). split; [reflexivity|].
  assert (H0 : history self st1 = []) by apply lookup_total_insert_eq.
  pose proof (run_queries_users self qs st1) as Hu. simpl in Hu.
  rewrite H0 in Hu. simpl in Hu. fold rs in Hu.
  split; [exact Hu|].
  rewrite <- (replied_inputs_length qs rs.1) by apply run_queries_length.
  rewrite <- Hu. by rewrite length_map.
Qed.

(** ** The routes *)

(** Every call of [process_medical_query] starts with the probe, so a
    state with the same [calls] has seen no call of it. *)
Lemma process_medical_query_probes (w : world) (self : MedicalChatbot)
    (user_input : pystr) (st : pystate) :
  exists cs, calls (process_medical_query w self user_input st).2
             = calls st ++ GET tags_url 5 :: cs.
Proof.
  query_paths; simpl; first [ by exists [] | eexists; by rewrite <- app_assoc ].
Qed.

(** C7. For a request whose JSON object has no ["message"] field, or a
    ["message"] string that is empty after [strip()], [chat] answers with
    status 400 and the body [{"error": "Message cannot be empty"}]; the
    state is the one before the request: no upstream call was made, so
    [process_medical_query] was not called, and the store is untouched. *)
Theorem chat_rejects_blank (w : world) (medical_bot : MedicalChatbot)
    (d : list (pystr * pyval)) (st : pystate) :
  (dict_lookup (lit "message") d = None
   \/ exists x, dict_lookup (lit "message") d = Some (PStr x) /\ strip x = []) ->
  chat w medical_bot (Val (PDict d)) st =
    (Val {| body := PDict [(lit "error", PStr (lit "Message cannot be empty"))];
            status := 400 |},
     st).
Proof.
  intros Hd. unfold chat, try_except, bind, py_get, py_strip, ret. simpl.
  destruct Hd as [-> | (x & -> & Hx)]; simpl; [reflexivity|].
  by rewrite Hx.
Qed.

(** C8, as the code has it. [get_conversation_history] returns the
    conversation list itself, a reference to the one list object and no
    copy, and changes nothing; [get_history] serialises its entries in list
    order and changes nothing; an operation performed through the returned
    reference is seen by later reads of the history. *)
Theorem history_is_shared (self : MedicalChatbot) (st : pystate) :
  get_conversation_history self st = (Val (conversation_history self), st)
  /\ get_history self st =
       (Val {| body := PList (List.map exchange_dict (history self st)); status := 200 |},
        st)
  /\ (forall op l', op_contents op (history self st) = Some l' ->
        history self (list_mutate (conversation_history self) op st).2 = l').
Proof.
  repeat split.
  intros op l' Hop. unfold list_mutate. fold (history self st). rewrite Hop.
  by apply (history_insert self st).
Qed.

(** C8, counterexample. After one answered question the history holds one
    entry; [clear()] on the value [get_conversation_history] returned
    empties the history later reads see. *)
Lemma snapshot_counterexample :
  get_conversation_history medical_bot0 state1 = (Val 1%positive, state1)
  /\ history medical_bot0 state1 = [cold_entry]
  /\ history medical_bot0 (list_mutate 1%positive op_clear state1).2 = []
  /\ (get_history medical_bot0 (list_mutate 1%positive op_clear state1).2).1
     = Val {| body := PList []; status := 200 |}
  /\ (get_history medical_bot0 state1).1
     = Val {| body := PList [exchange_dict cold_entry]; status := 200 |}.
Proof.
  repeat split; vm_compute; reflexivity.
Qed.

(** C9, as the code has it. Every error message of
    [process_medical_query] except the one of the [RequestException]
    clause is a fixed text of the source whose only parameters are the
    status the server answered with and the model name; the message of the
    [RequestException] clause is the fixed prefix followed by [str(e)] of
    the exception caught. *)
Theorem error_messages_are_templates (w : world) (self : MedicalChatbot)
    (user_input : pystr) (st st' : pystate) (s : site) (v : pyval) :
  process_medical_query w self user_input st = (Val (s, v), st') ->
  s <> Replied ->
  (s <> NetworkError ->
     exists m, template s (answered_status w self user_input) (model self) = Some m
               /\ v = PStr m)
  /\ (s = NetworkError ->
        exists e, caught w self user_input e /\ is_RequestException e = true
                  /\ v = PStr (msg_network_error e)).
Proof.
  unfold answered_status, caught. py_unfold.
  unfold AttributeError, builtin_error in *. simpl.
  intros Hq Hs.
  repeat (case_match; simpl in *; simplify_eq);
    (split; intros Hn; try done; eauto 8).
Qed.

(** C9, counterexample. The server answers the generation call with an
    endless chain of redirects; [requests.post] raises
    [requests.exceptions.TooManyRedirects], a [RequestException], and the
    message returned to the client ends with the text of that exception. *)
Lemma network_error_counterexample :
  let w := world_redirecting in
  let q := process_medical_query w medical_bot0 (lit "I have a cold") state0 in
  caught w medical_bot0 (lit "I have a cold") too_many_redirects
  /\ exn_str too_many_redirects = lit "Exceeded 30 redirects."
  /\ q.1 = Val (NetworkError,
               PStr ([0x1F6AB%N] ++ lit " Network error: Exceeded 30 redirects."))
  /\ gateway_result (NetworkError, PStr (msg_network_error too_many_redirects))
     = Failed ConnectionError (PStr (msg_network_error too_many_redirects))
  /\ contains (exn_str too_many_redirects) (msg_network_error too_many_redirects).
Proof.
  repeat split; try reflexivity.
  - by left.
  - exists ([0x1F6AB%N] ++ lit " Network error: "), []. reflexivity.
Qed.

(** ** The theorems at concrete inputs *)

(** The server answers 200 with a body that is not JSON. *)
Lemma query_always_returns_witness :
  faults_are_Exceptions (world_answering html_response) medical_bot0 (lit "I have a cold") = true
  /\ exists s v st',
       process_medical_query (world_answering html_response) medical_bot0
         (lit "I have a cold") state0 = (Val (s, v), st')
       /\ xorb (is_Ok (gateway_result (s, v))) (is_Failed (gateway_result (s, v))) = true
       /\ (is_Failed (gateway_result (s, v)) = true -> exists m, v = PStr m).
Proof.
  split; [reflexivity|].
  apply (query_always_returns (world_answering html_response) medical_bot0
           (lit "I have a cold") state0).
  reflexivity.
Defined.

(** The server is not running. *)
Lemma probe_failure_short_circuits_witness :
  (test_ollama_connection world_down medical_bot0 state0).1 = Val false
  /\ (process_medical_query world_down medical_bot0 (lit "I have a cold") state0).1
     = Val (ProbeFailed, PStr msg_probe_failed)
  /\ calls (process_medical_query world_down medical_bot0 (lit "I have a cold") state0).2
     = [GET tags_url 5].
Proof.
  split; [reflexivity|].
  pose proof (probe_failure_short_circuits world_down medical_bot0
                (lit "I have a cold") state0 eq_refl) as (H1 & _ & _ & H2 & _).
  split; [exact H1 | exact H2].
Defined.

(** The model is not installed: status 404. *)
Lemma bad_status_reported_witness :
  let r := reply_with 404 (lit "model not found") in
  let w := world_answering r in
  (test_ollama_connection w medical_bot0 state0).1 = Val true
  /\ printable (lit "model not found") = true
  /\ ~ (200 <= status_code r < 300)
  /\ (process_medical_query w medical_bot0 (lit "I have a cold") state0).1
     = Val (BadStatus, PStr (msg_bad_status 404 default_model_name))
  /\ contains (lit "404") (msg_bad_status 404 default_model_name)
  /\ contains (lit "llama3.2:3b") (msg_bad_status 404 default_model_name).
Proof.
  intros r w.
  assert (Hs : ~ (200 <= status_code r < 300)) by (simpl; lia).
  split; [reflexivity|]. split; [reflexivity|]. split; [exact Hs|].
  pose proof (bad_status_reported w medical_bot0 (lit "I have a cold") state0 r
                (lit "model not found") eq_refl eq_refl eq_refl Hs eq_refl eq_refl)
    as (H1 & _ & H2 & H3 & _).
  split; [exact H1|]. split; [exact H2 | exact H3].
Defined.

(** Status 200 with an empty answer. *)
Lemma empty_reply_on_200_witness :
  let r := reply_with 200 [] in
  let w := world_answering r in
  printable (model medical_bot0) = true
  /\ (test_ollama_connection w medical_bot0 state0).1 = Val true
  /\ status_code r = 200
  /\ (process_medical_query w medical_bot0 (lit "I have a cold") state0).1
     = Val (EmptyReply, PStr msg_empty_reply)
  /\ heap (process_medical_query w medical_bot0 (lit "I have a cold") state0).2
     = heap state0.
Proof.
  intros r w. split; [reflexivity|]. split; [reflexivity|]. split; [reflexivity|].
  pose proof (empty_reply_on_200 w medical_bot0 (lit "I have a cold") state0 r
                [(lit "response", PStr [])] eq_refl eq_refl eq_refl eq_refl eq_refl
                (or_intror eq_refl)) as (H1 & _ & _ & H2).
  split; [exact H1 | exact H2].
Defined.

(** Status 200 with an answer of three spaces. *)
Lemma whitespace_reply_is_returned_witness :
  let r := reply_with 200 (lit "   ") in
  let w := world_answering r in
  printable (model medical_bot0) = true
  /\ (test_ollama_connection w medical_bot0 state0).1 = Val true
  /\ forallb isspace (lit "   ") = true
  /\ (process_medical_query w medical_bot0 (lit "I have a cold") state0).1
     = Val (Replied, PStr (lit "   "))
  /\ history medical_bot0
       (process_medical_query w medical_bot0 (lit "I have a cold") state0).2
     = [{| user := lit "I have a cold"; bot := PStr (lit "   ");
           timestamp := iso_clock 0 |}].
Proof.
  intros r w. split; [reflexivity|]. split; [reflexivity|]. split; [reflexivity|].
  pose proof (whitespace_reply_is_returned w medical_bot0 (lit "I have a cold") state0 r
                [(lit "response", PStr (lit "   "))]
                eq_refl eq_refl eq_refl eq_refl eq_refl) as [H _].
  destruct (H (lit "   ") eq_refl) as (H1 & _ & H2); [discriminate|].
  split; [exact H1 | exact H2].
Defined.

(** The two requests of the specification: an empty message and one of
    three spaces. *)
Lemma chat_rejects_blank_witness :
  strip (lit "   ") = []
  /\ chat world_down medical_bot0 (Val (PDict [(lit "message", PStr (lit "   "))])) state0
     = (Val {| body := PDict [(lit "error", PStr (lit "Message cannot be empty"))];
               status := 400 |}, state0)
  /\ chat world_down medical_bot0 (Val (PDict [(lit "message", PStr [])])) state0
     = (Val {| body := PDict [(lit "error", PStr (lit "Message cannot be empty"))];
               status := 400 |}, state0)
  /\ chat world_down medical_bot0 (Val (PDict [])) state0
     = (Val {| body := PDict [(lit "error", PStr (lit "Message cannot be empty"))];
               status := 400 |}, state0).
Proof.
  split; [reflexivity|]. split; [|split].
  - apply (chat_rejects_blank world_down medical_bot0
             [(lit "message", PStr (lit "   "))] state0).
    right. exists (lit "   "). split; reflexivity.
  - apply (chat_rejects_blank world_down medical_bot0
             [(lit "message", PStr [])] state0).
    right. exists []. split; reflexivity.
  - apply (chat_rejects_blank world_down medical_bot0 [] state0).
    left. reflexivity.
Defined.

(** The server is not running: the message is the fixed text. *)
Lemma error_messages_are_templates_witness :
  process_medical_query world_down medical_bot0 (lit "I have a cold") state0
  = (Val (ProbeFailed, PStr msg_probe_failed),
     {| heap := heap state0; calls := [GET tags_url 5]; ticks := 0 |})
  /\ exists m,
       template ProbeFailed (answered_status world_down medical_bot0 (lit "I have a cold"))
         (model medical_bot0) = Some m
       /\ PStr msg_probe_failed = PStr m.
Proof.
  split; [reflexivity|].
  refine (proj1 (error_messages_are_templates world_down medical_bot0
                   (lit "I have a cold") state0 _ ProbeFailed (PStr msg_probe_failed)
                   eq_refl _) _); discriminate.
Defined.

(** The scenario of the specification: the answer goes back with the time
    of the second clock read, the first being the entry's. *)
Example chat_cold_scenario :
  (chat (world_answering (reply_with 200 cold_answer)) medical_bot0
     (Val (PDict [(lit "message", PStr (lit " I have a cold "))])) state0).1
  = Val {| body := PDict [(lit "response", PStr cold_answer);
                          (lit "timestamp", PStr (iso_clock 1))];
           status := 200 |}.
Proof. vm_compute. reflexivity. Qed.

(** A request body that is no JSON object ends in the 500 answer. *)
Example chat_null_body :
  (chat world_down medical_bot0 (Val PNone) state0).1
  = Val {| body := PDict [(lit "error",
                           PStr (lit "Server error: 'NoneType' object has no attribute 'get'"))];
           status := 500 |}.
Proof. vm_compute. reflexivity. Qed.

(** [medical_bot = MedicalChatbot()] on the empty store gives the chatbot
    and the state the concrete statements start from. *)
Example medical_bot_created :
  MedicalChatbot_init default_model_name empty_state = (Val medical_bot0, state0).
Proof. vm_compute. reflexivity. Qed.

Example strip_inner_space :
  strip (lit "  I have a cold" ++ [0xA0%N; 10%N]) = lit "I have a cold".
Proof. reflexivity. Qed.

Example str_int_samples :
  str_int 404 = lit "404" /\ str_int 0 = lit "0" /\ str_int (-1) = lit "-1".
Proof. repeat split. Qed.

(** * Further properties of the code *)

(** ** The probe and the upstream calls of a query *)

(** [test_ollama_connection] raises nothing, whatever the GET does, also
    for an exception outside [Exception]; it answers [True] exactly when
    the GET returned status 200; it makes that one GET, with a timeout of 5,
    and touches neither the store nor the clock. *)
Theorem probe_never_raises (w : world) (self : MedicalChatbot) (st : pystate) :
  exists b,
    test_ollama_connection w self st =
      (Val b, {| heap := heap st; calls := calls st ++ [GET tags_url 5];
                 ticks := ticks st |})
    /\ (b = true <-> exists r, http_get w tags_url = Val r /\ status_code r = 200).
Proof.
  exists (probe w). split; [apply test_ollama_connection_run|].
  unfold probe. destruct (http_get w tags_url) as [r|e].
  - rewrite Z.eqb_eq. split; [eauto | by intros (r' & [= <-] & H)].
  - split; [done | by intros (r' & [=] & _)].
Qed.



(** The prompt holds the user's text unchanged between two fixed parts,
    asks for the disclaimer, and two inputs never give the same prompt. *)
Theorem medical_prompt_verbatim (u1 u2 : pystr) :
  contains (lit "User question: " ++ u1 ++ [10%N; 10%N]) (medical_prompt u1)
  /\ contains (lit "include a disclaimer about consulting healthcare professionals")
       (medical_prompt u1)
  /\ (medical_prompt u1 = medical_prompt u2 -> u1 = u2).
Proof.
  unfold medical_prompt. repeat split.
  - exists (lit "You are a helpful medical information assistant. Please provide informative, accurate responses about health topics, but always remind users that this is for educational purposes only and they should consult healthcare professionals for medical advice."
            ++ [10%N; 10%N]),
      (lit "Please provide a helpful response and include a disclaimer about consulting healthcare professionals.").
    rewrite <- !app_assoc. reflexivity.
  - exists (lit "You are a helpful medical information assistant. Please provide informative, accurate responses about health topics, but always remind users that this is for educational purposes only and they should consult healthcare professionals for medical advice."
            ++ [10%N; 10%N] ++ lit "User question: " ++ u1 ++ [10%N; 10%N]
            ++ lit "Please provide a helpful response and "), (lit ".").
    rewrite <- !app_assoc. reflexivity.
  - intros E. apply app_inv_head in E. apply app_inv_head in E.
    apply app_inv_head in E. by apply app_inv_tail in E.
Qed.

(** ** The [except] clauses *)

(** When the generation call raises (on a chatbot whose model name can be
    printed, so that the call is made), the first clause that matches
    decides: a [Timeout] gives the time-out message even when the exception
    is a [ConnectionError] too (as [ConnectTimeout] is), a [ConnectionError]
    that is no [Timeout] gives the connection message, and an [Exception]
    that is no [RequestException] gives the general message. Nothing is
    stored. *)
Theorem first_matching_clause (w : world) (self : MedicalChatbot)
    (user_input : pystr) (st : pystate) (e : exn) :
  printable (model self) = true ->
  probe w = true ->
  http_post w (ollama_url self) (make_payload self user_input) = Exc e ->
  let q := process_medical_query w self user_input st in
  (is_Timeout e = true -> q.1 = Val (TimedOut, PStr msg_timed_out))
  /\ (is_Timeout e = false -> is_ConnectionError e = true ->
        q.1 = Val (ConnectionLost, PStr msg_connection_lost))
  /\ (is_Timeout e = false -> is_ConnectionError e = false ->
      is_RequestException e = false -> is_Exception e = true ->
        q.1 = Val (Unexpected, PStr msg_unexpected))
  /\ heap q.2 = heap st.
Proof.
  intros Hm Hp Hr q. subst q. rewrite process_medical_query_run. cbv zeta.
  rewrite Hm, Hp, Hr, query_handlers_run. cbn [negb].
  repeat split.
  - by intros ->.
  - by intros -> ->.
  - by intros -> -> -> ->.
  - repeat case_match; by simplify_eq.
Qed.

(** A 200 answer whose JSON is not an object (a list, a string, a number,
    [null]) makes [result.get] fail; the caller gets the general message,
    with no text of the exception, and nothing is stored. *)
Theorem non_object_body_is_unexpected (w : world) (self : MedicalChatbot)
    (user_input : pystr) (st : pystate) (r : Response) (v : pyval) :
  probe w = true ->
  http_post w (ollama_url self) (make_payload self user_input) = Val r ->
  status_code r = 200 ->
  json r = Val v ->
  is_dict v = false ->
  let q := process_medical_query w self user_input st in
  q.1 = Val (Unexpected, PStr msg_unexpected) /\ heap q.2 = heap st.
Proof.
  intros Hp Hr Hs Hj Hv q. subst q. rewrite process_medical_query_run. cbv zeta.
  rewrite Hp, Hr, Hs, Hj. cbn [negb].
  destruct (printable (model self)); cbn [negb]; [|done].
  by destruct v.
Qed.

(** A ['response'] that is no string but false in Python's sense ([null],
    [false], [0], [0.0], [[]], [{}]) is taken for an empty answer (on a
    chatbot whose model name can be printed, so that the call is made). *)
Theorem falsy_reply_is_empty (w : world) (self : MedicalChatbot)
    (user_input : pystr) (st : pystate) (r : Response) (d : list (pystr * pyval))
    (v : pyval) :
  printable (model self) = true ->
  probe w = true ->
  http_post w (ollama_url self) (make_payload self user_input) = Val r ->
  status_code r = 200 ->
  json r = Val (PDict d) ->
  dict_lookup (lit "response") d = Some v ->
  truthy v = false ->
  let q := process_medical_query w self user_input st in
  q.1 = Val (EmptyReply, PStr msg_empty_reply) /\ heap q.2 = heap st.
Proof.
  intros Hm Hp Hr Hs Hj Hd Hv q. subst q.
  rewrite (empty_reply_run w self user_input st r d Hp Hm Hr Hs Hj) by (by rewrite Hd).
  done.
Qed.

(** ** The conversation list over time *)

(** A call writes to no list object but the chatbot's own. *)
Lemma process_medical_query_frame (w : world) (self : MedicalChatbot)
    (user_input : pystr) (st : pystate) (l : loc) :
  l <> conversation_history self ->
  deref (heap (process_medical_query w self user_input st).2) l = deref (heap st) l.
Proof.
  intros Hl. pose proof (process_medical_query_heap w self user_input st) as H.
  simpl in H. unfold deref.
  destruct (process_medical_query w self user_input st).1 as [[s v]|e];
    [destruct s|]; simpl in H; try (by rewrite H).
  destruct H as [_ ->]. by apply lookup_total_insert_ne.
Qed.

(** What a sequence of calls adds to the conversation list: one entry per
    call that returned the model's answer, with the input and the answer of
    that call, the answer never empty. *)
Lemma run_queries_added (self : MedicalChatbot) (qs : list (world * pystr)) (st : pystate) :
  let rs := run_queries self qs st in
  exists added,
    history self rs.2 = history self st ++ added
    /\ List.map user added = replied_inputs qs rs.1
    /\ List.map bot added = replied_answers rs.1
    /\ Forall (fun x => truthy (bot x) = true) added.
Proof.
  revert st. induction qs as [|[w u] qs IH]; intros st; simpl.
  - exists []. by rewrite app_nil_r.
  - destruct (IH (process_medical_query w self u st).2) as (added & H1 & H2 & H3 & H4).
    pose proof (process_medical_query_history w self u st) as Hq.
    pose proof (process_medical_query_heap w self u st) as Hh.
    simpl in Hq, Hh. rewrite H1, Hq, <- app_assoc. clear H1 Hq.
    destruct (process_medical_query w self u st).1 as [[s v]|e];
      [destruct s|]; simpl in *; try (by exists added).
    exists (new_entry w u v st :: added).
    destruct Hh as [Hv _]. repeat split; simpl; try congruence.
    by constructor.
Qed.

Lemma run_queries_frame (self : MedicalChatbot) (qs : list (world * pystr))
    (st : pystate) (l : loc) :
  l <> conversation_history self ->
  deref (heap (run_queries self qs st).2) l = deref (heap st) l.
Proof.
  intros Hl. revert st. induction qs as [|[w u] qs IH]; intros st; simpl; [done|].
  rewrite IH. by apply process_medical_query_frame.
Qed.

(** Calls of [process_medical_query] only ever append: after any sequence
    of calls the entries the list held before are still its first entries,
    unchanged, and every other list object of the store is as it was. *)
Theorem queries_only_append (self : MedicalChatbot) (qs : list (world * pystr))
    (st : pystate) :
  let rs := run_queries self qs st in
  history self st `prefix_of` history self rs.2
  /\ (forall l, l <> conversation_history self ->
        deref (heap rs.2) l = deref (heap st) l).
Proof.
  intros rs. split.
  - destruct (run_queries_added self qs st) as (added & H & _). by exists added.
  - intros l Hl. by apply run_queries_frame.
Qed.

(** On a chatbot made by [__init__], after any sequence of calls the
    ['bot'] values of the conversation list are the values the answered
    calls returned to their callers, in call order, and none of them is
    empty. *)
Theorem history_answers_round_trip (model_name : pystr) (st0 : pystate)
    (qs : list (world * pystr)) :
  exists self st1,
    MedicalChatbot_init model_name st0 = (Val self, st1)
    /\ let rs := run_queries self qs st1 in
       List.map bot (history self rs.2) = replied_answers rs.1
       /\ Forall (fun x => truthy (bot x) = true) (history self rs.2).
Proof.
  do 2 eexists. split; [reflexivity|].
  set (self := {| model := model_name |}).
  set (st1 := {| heap := <[_ := []]> (heap st0) |}).
  intros rs.
  assert (H0 : history self st1 = []) by apply lookup_total_insert_eq.
  destruct (run_queries_added self qs st1) as (added & H1 & _ & H3 & H4).
  fold rs in H1, H3. rewrite H0 in H1. simpl in H1. rewrite H1. by split.
Qed.

(** [__init__] gives the chatbot a list object of its own: one that was
    not in the store, empty, with every list that was in the store left as
    it was; it takes the model name given and makes no upstream call. *)
Theorem init_makes_fresh_history (model_name : pystr) (st : pystate) :
  exists self st1,
    MedicalChatbot_init model_name st = (Val self, st1)
    /\ model self = model_name
    /\ (conversation_history self ∉ dom (heap st))
    /\ history self st1 = []
    /\ (forall l, l ∈ dom (heap st) -> deref (heap st1) l = deref (heap st) l)
    /\ calls st1 = calls st.
Proof.
  do 2 eexists. split; [reflexivity|]. simpl.
  repeat split.
  - apply is_fresh.
  - apply lookup_total_insert_eq.
  - intros l Hl. unfold deref. simpl. apply lookup_total_insert_ne.
    intros <-. by apply is_fresh in Hl.
Qed.

(** Two chatbots do not share a history: for a chatbot whose list is in
    the store, a second chatbot made by [__init__] has another list, and no
    sequence of calls on the second changes the history of the first. *)
Theorem chatbots_do_not_share (a : MedicalChatbot) (model_name : pystr)
    (st : pystate) (qs : list (world * pystr)) :
  conversation_history a ∈ dom (heap st) ->
  exists b st1,
    MedicalChatbot_init model_name st = (Val b, st1)
    /\ conversation_history b <> conversation_history a
    /\ history a (run_queries b qs st1).2 = history a st.
Proof.
  intros Ha. do 2 eexists. split; [reflexivity|]. simpl.
  assert (Hne : fresh (dom (heap st)) <> conversation_history a).
  { intros E. rewrite <- E in Ha. by apply is_fresh in Ha. }
  split; [exact Hne|].
  unfold history. rewrite run_queries_frame by (simpl; congruence).
  unfold deref. simpl. by apply lookup_total_insert_ne.
Qed.

(** ** The chat route *)

Lemma lstrip_snoc (x : pystr) (c : N) :
  isspace c = false -> lstrip (x ++ [c]) = lstrip x ++ [c].
Proof.
  intros Hc. induction x as [|a x IH]; simpl; [by rewrite Hc|].
  by destruct (isspace a).
Qed.

(** What [rstrip] leaves is empty or ends with a character that is not
    white space. *)
Lemma rstrip_last (x : pystr) :
  rstrip x = [] \/ exists y c, rstrip x = y ++ [c] /\ isspace c = false.
Proof.
  unfold rstrip. destruct (lstrip_head (rev x)) as [-> | (c & y & -> & Hc)].
  - by left.
  - right. exists (rev y), c. by split.
Qed.

Lemma rstrip_cons (c : N) (x : pystr) :
  isspace c = false -> rstrip (c :: x) = c :: rstrip x.
Proof.
  intros Hc. unfold rstrip. simpl. rewrite (lstrip_snoc _ _ Hc).
  by rewrite rev_app_distr.
Qed.

(** A trimmed text has no white space at either end. *)
Lemma strip_ends (x : pystr) :
  (forall c y, strip x = c :: y -> isspace c = false)
  /\ (forall y c, strip x = y ++ [c] -> isspace c = false).
Proof.
  unfold strip. split.
  - intros c y E. destruct (lstrip_head x) as [H | (c' & y' & H & Hc)];
      rewrite H in E; [discriminate|].
    rewrite (rstrip_cons _ _ Hc) in E. congruence.
  - intros y c E. destruct (rstrip_last (lstrip x)) as [H | (y' & c' & H & Hc)];
      rewrite H in E.
    + by destruct y.
    + apply app_inj_tail in E as [_ ->]. exact Hc.
Qed.

(** The clock reads of a call. *)
Lemma process_medical_query_ticks (w : world) (self : MedicalChatbot)
    (user_input : pystr) (st : pystate) :
  let q := process_medical_query w self user_input st in
  ticks q.2 = if replied q.1 then S (ticks st) else ticks st.
Proof.
  py_unfold. simpl. repeat (case_match; simpl in *; simplify_eq); reflexivity.
Qed.

(** Under the hypothesis on the exceptions, a call returns a value. *)
Lemma process_medical_query_returns (w : world) (self : MedicalChatbot)
    (user_input : pystr) (st : pystate) :
  faults_are_Exceptions w self user_input = true ->
  exists s v st', process_medical_query w self user_input st = (Val (s, v), st').
Proof.
  unfold faults_are_Exceptions. intros Hf.
  rewrite process_medical_query_run. cbv zeta.
  destruct (probe w); cbn [negb]; [|by do 3 eexists].
  destruct (printable (model self)); cbn [negb]; [|by do 3 eexists].
  destruct (http_post w (ollama_url self) (make_payload self user_input)) as [r|e].
  - apply andb_prop in Hf as [Hj Ht].
    destruct (status_code r =? 200).
    + destruct (json r) as [result|e].
      * destruct result; try by do 3 eexists.
        destruct (truthy _); by do 3 eexists.
      * destruct (query_handlers_return_early e
                    {| heap := heap st;
                       calls := (calls st ++ [GET tags_url 5])
                                ++ [POST (ollama_url self)
                                      (make_payload self user_input) 60];
                       ticks := ticks st |} Hj) as (s & m & -> & _).
        by do 3 eexists.
    + destruct (text r) as [x|e].
      * destruct (printable x); by do 3 eexists.
      * destruct (query_handlers_return_early e
                    {| heap := heap st;
                       calls := (calls st ++ [GET tags_url 5])
                                ++ [POST (ollama_url self)
                                      (make_payload self user_input) 60];
                       ticks := ticks st |} Ht) as (s & m & -> & _).
        by do 3 eexists.
  - destruct (query_handlers_return_early e
                {| heap := heap st;
                   calls := (calls st ++ [GET tags_url 5])
                            ++ [POST (ollama_url self)
                                  (make_payload self user_input) 60];
                   ticks := ticks st |} Hf) as (s & m & -> & _).
    by do 3 eexists.
Qed.

(** The [except] clause of [chat] without its print, which never fails. *)
Lemma chat_handler_run (e : exn) (st : pystate) :
  (if is_Exception e then
     py_print ([0x274C%N] ++ lit " Server error: " ++ exn_str e) ;;;
     ret {| body := PDict [(lit "error", PStr (lit "Server error: " ++ exn_str e))];
            status := 500 |}
   else raise e) st =
  if is_Exception e then
    (Val {| body := PDict [(lit "error", PStr (lit "Server error: " ++ exn_str e))];
            status := 500 |}, st)
  else (Exc e, st).
Proof.
  destruct (is_Exception e); [|reflexivity].
  unfold bind. by rewrite py_print_ok by (by apply printable_exn).
Qed.

(** [chat], path by path. The print of line 111 fails for a message that
    cannot be printed, before the chatbot is asked; the print of line 116
    fails when the first 100 characters of the answer cannot be printed,
    after the chatbot was asked. *)
Lemma chat_run (w : world) (medical_bot : MedicalChatbot) (get_json : res pyval)
    (st : pystate) :
  let failed (e : exn) (st' : pystate) :=
    if is_Exception e then
      (Val {| body := PDict [(lit "error", PStr (lit "Server error: " ++ exn_str e))];
              status := 500 |}, st')
    else (Exc e, st') in
  let answered (v : pyval) (st' : pystate) :=
    (Val {| body := PDict [(lit "response", v);
                           (lit "timestamp", PStr (clock w (ticks st')))];
            status := 200 |},
     {| heap := heap st'; calls := calls st'; ticks := S (ticks st') |}) in
  chat w medical_bot get_json st =
    match get_json with
    | Exc e => failed e st
    | Val (PDict d) =>
        match default (PStr []) (dict_lookup (lit "message") d) with
        | PStr x =>
            if negb (truthy (PStr (strip x))) then
              (Val {| body := PDict [(lit "error", PStr (lit "Message cannot be empty"))];
                      status := 400 |}, st)
            else if printable (strip x) then
              match process_medical_query w medical_bot (strip x) st with
              | (Val answer, st1) =>
                  match answer.2 with
                  | PStr m =>
                      if printable (take 100 m) then answered (PStr m) st1
                      else failed (UnicodeEncodeError
                                     ([0x1F916%N] ++ lit " Bot response: "
                                      ++ take 100 m ++ lit "...")) st1
                  | PList l => answered (PList l) st1
                  | PDict _ => failed (builtin_error "unhashable type: 'slice'") st1
                  | v => failed (TypeError_subscript v) st1
                  end
              | (Exc e, st1) => failed e st1
              end
            else failed (UnicodeEncodeError
                           ([0x1F4AC%N] ++ lit " User message: " ++ strip x)) st
        | m => failed (AttributeError m "strip") st
        end
    | Val v => failed (AttributeError v "get") st
    end.
Proof.
  cbv zeta. unfold chat, try_except.
  destruct get_json as [v|e]; [|unfold bind at 1; apply chat_handler_run].
  unfold bind at 1. cbv beta iota.
  destruct v as [| | | | | |d]; try (unfold bind, py_get, raise; apply chat_handler_run).
  unfold bind at 1, py_get, ret. cbv beta iota.
  destruct (dict_lookup (lit "message") d) as [m|]; cbn [default from_option id];
    [|reflexivity].
  destruct m as [| | | |x| |];
    try (unfold bind, py_strip, raise; apply chat_handler_run).
  unfold bind at 1, py_strip, ret. cbv beta iota.
  destruct (negb (truthy (PStr (strip x)))); [reflexivity|].
  unfold bind at 1.
  pose proof (printable_marked 0x1F4AC%N " User message: " (strip x) eq_refl) as Hu.
  destruct (printable (strip x)).
  - rewrite (py_print_ok _ _ Hu). unfold bind at 1.
    destruct (process_medical_query w medical_bot (strip x) st) as [[[s v]|e] st1];
      [|apply chat_handler_run].
    cbv zeta. unfold bind at 1, py_slice_to. cbn [snd].
    destruct v as [| | | |m|l|d']; try (unfold raise; apply chat_handler_run).
    + unfold ret. cbv beta iota. unfold bind at 1, print_formatted.
      assert (Hb : printable ([0x1F916%N] ++ lit " Bot response: " ++ take 100 m
                               ++ lit "...") = printable (take 100 m)).
      { rewrite (printable_marked 0x1F916%N " Bot response: " _ eq_refl).
        by rewrite printable_app, printable_lit, andb_true_r. }
      destruct (printable (take 100 m)).
      * by rewrite (py_print_ok _ _ Hb).
      * rewrite (py_print_fails _ _ Hb). apply chat_handler_run.
    + reflexivity.
  - rewrite (py_print_fails _ _ Hu). apply chat_handler_run.
Qed.

(** Whatever message [process_medical_query] returns for the trimmed text,
    the model's answer or any of the error messages, [chat] sends it back
    with status 200, under ["response"], with a time stamp read after the
    call, when the trimmed text and the first 100 characters of the message
    returned can be printed. *)
Theorem chat_relays_every_message (w : world) (medical_bot : MedicalChatbot)
    (d : list (pystr * pyval)) (x : pystr) (st st1 : pystate) (s : site) (m : pystr) :
  dict_lookup (lit "message") d = Some (PStr x) ->
  strip x <> [] ->
  printable (strip x) = true ->
  process_medical_query w medical_bot (strip x) st = (Val (s, PStr m), st1) ->
  printable (take 100 m) = true ->
  chat w medical_bot (Val (PDict d)) st =
    (Val {| body := PDict [(lit "response", PStr m);
                           (lit "timestamp", PStr (clock w (ticks st1)))];
            status := 200 |},
     {| heap := heap st1; calls := calls st1; ticks := S (ticks st1) |}).
Proof.
  intros Hd Hx Hu Hq Hm. rewrite chat_run. cbv zeta.
  rewrite Hd. cbn [default from_option id]. rewrite Hu, Hq. cbn [snd]. rewrite Hm.
  by destruct (strip x).
Qed.



(** For a message that is not blank and can be printed, what [chat] does to
    the store and to the upstream server is what the one call of
    [process_medical_query] on the trimmed text does, whatever [chat]
    answers; and the trimmed text has no white space at either end. *)
Theorem chat_effect_is_the_query (w : world) (medical_bot : MedicalChatbot)
    (d : list (pystr * pyval)) (x : pystr) (st : pystate) :
  dict_lookup (lit "message") d = Some (PStr x) ->
  strip x <> [] ->
  printable (strip x) = true ->
  let c := chat w medical_bot (Val (PDict d)) st in
  let q := process_medical_query w medical_bot (strip x) st in
  heap c.2 = heap q.2
  /\ calls c.2 = calls q.2
  /\ (forall a y, strip x = a :: y -> isspace a = false)
  /\ (forall y a, strip x = y ++ [a] -> isspace a = false).
Proof.
  intros Hd Hx Hu c q. subst c q. rewrite chat_run. cbv zeta.
  rewrite Hd. cbn [default from_option id]. rewrite Hu.
  destruct (strip_ends x) as [H1 H2].
  assert (Ht : negb (truthy (PStr (strip x))) = false) by (by destruct (strip x)).
  rewrite Ht.
  destruct (process_medical_query w medical_bot (strip x) st) as [[[s v]|e] st1];
    cbn [fst snd].
  - destruct v; repeat case_match; repeat split; assumption.
  - destruct (is_Exception e); repeat split; assumption.
Qed.

(** A request that is no JSON object, one whose ["message"] is no string,
    and one whose body [get_json] rejects with an [Exception] all get status
    500 with the text of the exception after ["Server error: "]; the state
    is left as it was, so no call is made. *)
Theorem chat_malformed_request (w : world) (medical_bot : MedicalChatbot) (st : pystate) :
  (forall v, is_dict v = false ->
     chat w medical_bot (Val v) st =
       (Val {| body := PDict [(lit "error",
                               PStr (lit "Server error: '" ++ type_name v
                                     ++ lit "' object has no attribute 'get'"))];
               status := 500 |}, st))
  /\ (forall d m, dict_lookup (lit "message") d = Some m -> is_str m = false ->
        chat w medical_bot (Val (PDict d)) st =
          (Val {| body := PDict [(lit "error",
                                  PStr (lit "Server error: '" ++ type_name m
                                        ++ lit "' object has no attribute 'strip'"))];
                  status := 500 |}, st))
  /\ (forall e, is_Exception e = true ->
        chat w medical_bot (Exc e) st =
          (Val {| body := PDict [(lit "error", PStr (lit "Server error: " ++ exn_str e))];
                  status := 500 |}, st)).
Proof.
  repeat split.
  - intros v Hv. rewrite chat_run. by destruct v.
  - intros d m Hd Hm. rewrite chat_run. cbv zeta. rewrite Hd. by destruct m.
  - intros e He. rewrite chat_run. cbv zeta. by rewrite He.
Qed.

(** When the exceptions of the request and of the upstream calls are
    [Exception]s, [chat] raises nothing and answers with status 200, 400 or
    500. *)
Theorem chat_always_answers (w : world) (medical_bot : MedicalChatbot)
    (get_json : res pyval) (st : pystate) :
  request_fault_is_Exception get_json = true ->
  (forall user_input, faults_are_Exceptions w medical_bot user_input = true) ->
  exists a st',
    chat w medical_bot get_json st = (Val a, st')
    /\ (status a = 200 \/ status a = 400 \/ status a = 500).
Proof.
  intros Hg Hw. rewrite chat_run. cbv zeta.
  destruct get_json as [v|e]; simpl in Hg; [|rewrite Hg; chat_answered].
  destruct v as [| | | | | |d]; try chat_answered.
  destruct (default (PStr []) (dict_lookup (lit "message") d)) as [| | | |x| |];
    try chat_answered.
  destruct (negb (truthy (PStr (strip x)))); [chat_answered|].
  destruct (printable (strip x)); [|chat_answered].
  destruct (process_medical_query_returns w medical_bot (strip x) st (Hw _))
    as (s & v & st1 & ->).
  cbn [snd]. destruct v; try chat_answered.
  destruct (printable (take 100 x0)); chat_answered.
Qed.

(** A 200 answer whose ['response'] is a number other than zero is taken
    for an answer: the entry is appended with the number as ['bot'] value,
    and then [chat] fails on [bot_response[:100]] and answers 500. The log
    holds an exchange the client never saw. (The message and the model name
    can be printed, so that the chatbot is asked.) *)
Theorem chat_number_reply (w : world) (medical_bot : MedicalChatbot)
    (d : list (pystr * pyval)) (x : pystr) (st : pystate)
    (r : Response) (d' : list (pystr * pyval)) (n : Z) :
  dict_lookup (lit "message") d = Some (PStr x) ->
  strip x <> [] ->
  printable (strip x) = true ->
  printable (model medical_bot) = true ->
  probe w = true ->
  http_post w (ollama_url medical_bot) (make_payload medical_bot (strip x)) = Val r ->
  status_code r = 200 ->
  json r = Val (PDict d') ->
  dict_lookup (lit "response") d' = Some (PInt n) ->
  n <> 0 ->
  let c := chat w medical_bot (Val (PDict d)) st in
  c.1 = Val {| body := PDict [(lit "error",
                               PStr (lit "Server error: 'int' object is not subscriptable"))];
               status := 500 |}
  /\ history medical_bot c.2 =
       history medical_bot st ++
         [{| user := strip x; bot := PInt n; timestamp := clock w (ticks st) |}].
Proof.
  intros Hd Hx Hu Hmodel Hp Hr Hs Hj Hd' Hn c. subst c.
  rewrite chat_run. cbv zeta. rewrite Hd. cbn [default from_option id]. rewrite Hu.
  rewrite (replied_run w medical_bot (strip x) st r d' (PInt n) Hp Hmodel Hr Hs Hj Hd')
    by (simpl; by apply negb_true_iff, Z.eqb_neq).
  assert (Ht : negb (truthy (PStr (strip x))) = false) by (by destruct (strip x)).
  rewrite Ht. cbn [snd].
  split; [reflexivity|]. apply history_append.
Qed.

(** After a chat that returned the model's answer (the message and the
    first 100 characters of the answer can be printed), [get_history] lists
    the entries there were and then the new one: the trimmed message, the
    answer sent to the client, and a time stamp that is the clock read
    before the one of the chat response. *)
Theorem history_after_chat (w : world) (medical_bot : MedicalChatbot)
    (d : list (pystr * pyval)) (x m : pystr) (st st1 : pystate) :
  dict_lookup (lit "message") d = Some (PStr x) ->
  strip x <> [] ->
  printable (strip x) = true ->
  process_medical_query w medical_bot (strip x) st = (Val (Replied, PStr m), st1) ->
  printable (take 100 m) = true ->
  let c := chat w medical_bot (Val (PDict d)) st in
  answer_field "response" c = Some (PStr m)
  /\ answer_field "timestamp" c = Some (PStr (clock w (S (ticks st))))
  /\ (get_history medical_bot c.2).1 =
       Val {| body := PList (List.map exchange_dict (history medical_bot st)
                             ++ [PDict [(lit "user", PStr (strip x));
                                        (lit "bot", PStr m);
                                        (lit "timestamp", PStr (clock w (ticks st)))]]);
              status := 200 |}.
Proof.
  intros Hd Hx Hu Hq Hm c. subst c.
  pose proof (process_medical_query_ticks w medical_bot (strip x) st) as Ht.
  pose proof (process_medical_query_history w medical_bot (strip x) st) as Hh.
  simpl in Ht, Hh. rewrite Hq in Ht, Hh. simpl in Ht, Hh.
  rewrite chat_run. cbv zeta. rewrite Hd. cbn [default from_option id]. rewrite Hu, Hq.
  cbn [snd]. rewrite Hm.
  assert (Hb : negb (truthy (PStr (strip x))) = false) by (by destruct (strip x)).
  rewrite Hb.
  unfold answer_field. simpl. rewrite Ht. repeat split.
  unfold get_history, get_conversation_history, bind, ret. simpl.
  fold (history medical_bot st1). rewrite Hh, List.map_app. reflexivity.
Qed.

(** ** The diagnostic routes *)

Lemma model_names_run (items : list pyval) (st : pystate) :
  model_names items st = ((model_names items empty_state).1, st).
Proof.
  induction items as [|item items IH]; simpl; [reflexivity|].
  unfold bind, py_get, ret, raise in *.
  destruct item; simpl; try reflexivity.
  rewrite IH. by destruct (model_names items empty_state) as [[a|e] st0].
Qed.

(** [list_models] reads no state and changes none. *)
Lemma list_models_run (r : Response) (st : pystate) :
  list_models r st = (listed r, st).
Proof.
  unfold listed, list_models, bind, response_json, py_get, py_iter, ret, raise.
  destruct (json r) as [v|e]; simpl; [|reflexivity].
  destruct v; simpl; try reflexivity.
  destruct (dict_lookup (lit "models") d) as [v|]; simpl; [|reflexivity].
  destruct v; simpl; try reflexivity;
    rewrite (model_names_run _ st);
    by destruct (model_names _ empty_state) as [[a|e] st0].
Qed.

Lemma model_names_names (items names : list pyval) (st : pystate) :
  mapM name_of items = Some names -> model_names items st = (Val names, st).
Proof.
  revert names. induction items as [|item items IH]; intros names; simpl.
  - by intros [= <-].
  - destruct item; simpl; try discriminate.
    destruct (mapM name_of items) as [ns|]; simpl; [|discriminate].
    intros [= <-]. unfold bind, py_get, ret. simpl. by rewrite (IH ns).
Qed.

Lemma model_names_not_object (items : list pyval) (st : pystate) :
  mapM name_of items = None ->
  exists e, model_names items st = (Exc e, st) /\ is_Exception e = true.
Proof.
  induction items as [|item items IH]; simpl; [discriminate|].
  unfold bind, py_get, ret, raise.
  destruct item; simpl; try (intros _; by eexists).
  destruct (mapM name_of items) as [ns|]; simpl; [discriminate|].
  intros _. destruct IH as (e & -> & He); [done|]. by exists e.
Qed.

(** The listing both diagnostic routes read from a 200 answer of the tags
    endpoint whose JSON is an object: no ['models'] key gives the empty
    list; a list of objects gives their ['name'] values in order, with the
    empty string for an object without a name; a list with an entry that is
    no object raises instead of skipping the entry. *)
Theorem listing_names (r : Response) (d : list (pystr * pyval)) :
  json r = Val (PDict d) ->
  (dict_lookup (lit "models") d = None -> listed r = Val [])
  /\ (forall items names,
        dict_lookup (lit "models") d = Some (PList items) ->
        mapM name_of items = Some names -> listed r = Val names)
  /\ (forall items,
        dict_lookup (lit "models") d = Some (PList items) ->
        mapM name_of items = None ->
        exists e, listed r = Exc e /\ is_Exception e = true).
Proof.
  intros Hj. unfold listed, list_models, bind, response_json, py_get, py_iter, ret.
  rewrite Hj. simpl. repeat split.
  - by intros ->.
  - intros items names -> Hn. simpl. by rewrite (model_names_names _ _ _ Hn).
  - intros items -> Hn. simpl.
    destruct (model_names_not_object items empty_state Hn) as (e & -> & He).
    by exists e.
Qed.

(** [health_check] as one equation per case of the probe. *)
Lemma health_check_run (w : world) (medical_bot : MedicalChatbot) (st : pystate) :
  let answer (ollama : pystr) (models : list pyval) :=
    (Val {| body := PDict [(lit "status", PStr (lit "healthy"));
                           (lit "ollama", PStr ollama);
                           (lit "available_models", PList models);
                           (lit "current_model", PStr (model medical_bot));
                           (lit "timestamp", PStr (clock w (ticks st)))];
            status := 200 |},
     {| heap := heap st; calls := calls st ++ [GET tags_url 5]; ticks := S (ticks st) |}) in
  let failed (e : exn) :=
    if is_Exception e then answer (lit "disconnected") []
    else (Exc e, {| heap := heap st; calls := calls st ++ [GET tags_url 5];
                    ticks := ticks st |}) in
  health_check w medical_bot st =
    match http_get w tags_url with
    | Val r =>
        if status_code r =? 200 then
          match listed r with
          | Val models => answer (lit "connected") models
          | Exc e => failed e
          end
        else answer (lit "disconnected") []
    | Exc e => failed e
    end.
Proof.
  unfold health_check, try_except, bind at 1 2, requests_get. simpl.
  destruct (http_get w tags_url) as [r|e].
  - destruct (status_code r =? 200); [|reflexivity].
    unfold bind at 1. rewrite list_models_run.
    destruct (listed r) as [models|e]; [reflexivity|].
    by destruct (is_Exception e).
  - by destruct (is_Exception e).
Qed.

(** [test_ollama] as one equation per case of the probe. *)
Lemma test_ollama_run (w : world) (medical_bot : MedicalChatbot) (st : pystate) :
  let st' := {| heap := heap st; calls := calls st ++ [GET tags_url 5];
                ticks := ticks st |} in
  let error (message : pystr) :=
    (Val {| body := PDict [(lit "status", PStr (lit "error"));
                           (lit "message", PStr message)];
            status := 200 |}, st') in
  let failed (e : exn) :=
    if is_ConnectionError e then
      error (lit "Cannot connect to Ollama. Make sure it's running with: ollama serve")
    else if is_Exception e then error (lit "Error testing Ollama: " ++ exn_str e)
    else (Exc e, st') in
  test_ollama w medical_bot st =
    match http_get w tags_url with
    | Val r =>
        if status_code r =? 200 then
          match listed r with
          | Val models =>
              (Val {| body := PDict [(lit "status", PStr (lit "success"));
                                     (lit "message",
                                      PStr (lit "Ollama is running and accessible"));
                                     (lit "available_models", PList models);
                                     (lit "current_model", PStr (model medical_bot));
                                     (lit "model_available",
                                      PBool (str_in (model medical_bot) models))];
                      status := 200 |}, st')
          | Exc e => failed e
          end
        else error (lit "Ollama returned status " ++ str_int (status_code r))
    | Exc e => failed e
    end.
Proof.
  unfold test_ollama, try_except, bind at 1, requests_get. simpl.
  destruct (http_get w tags_url) as [r|e].
  - destruct (status_code r =? 200); [|reflexivity].
    unfold bind at 1. rewrite list_models_run.
    destruct (listed r) as [models|e]; [reflexivity|].
    destruct (is_ConnectionError e); [reflexivity|]. by destruct (is_Exception e).
  - destruct (is_ConnectionError e); [reflexivity|]. by destruct (is_Exception e).
Qed.

(** [health_check] never fails the request when the server is down or
    answers badly: it always answers 200 with status ["healthy"], makes the
    one GET and reads the clock once, and leaves the store alone. It says
    ["connected"], with the models listed, exactly when the tags endpoint
    answered 200 and the listing could be read; in every other case it says
    ["disconnected"] with an empty list. *)
Theorem health_check_always_answers (w : world) (medical_bot : MedicalChatbot)
    (st : pystate) :
  tags_faults_are_Exceptions w = true ->
  exists ollama models,
    health_check w medical_bot st =
      (Val {| body := PDict [(lit "status", PStr (lit "healthy"));
                             (lit "ollama", PStr ollama);
                             (lit "available_models", PList models);
                             (lit "current_model", PStr (model medical_bot));
                             (lit "timestamp", PStr (clock w (ticks st)))];
              status := 200 |},
       {| heap := heap st; calls := calls st ++ [GET tags_url 5];
          ticks := S (ticks st) |})
    /\ ((ollama = lit "connected"
         /\ exists r, http_get w tags_url = Val r /\ status_code r = 200
                      /\ listed r = Val models)
        \/ (ollama = lit "disconnected" /\ models = []
            /\ ~ exists r ms, http_get w tags_url = Val r /\ status_code r = 200
                              /\ listed r = Val ms)).
Proof.
  unfold tags_faults_are_Exceptions. intros Hf.
  rewrite health_check_run. simpl.
  destruct (http_get w tags_url) as [r|e].
  - destruct (status_code r =? 200) eqn:Hs.
    + destruct (listed r) as [models|e] eqn:Hl.
      * exists (lit "connected"), models. split; [reflexivity|].
        left. split; [reflexivity|]. exists r. by rewrite <- Z.eqb_eq.
      * rewrite Hf. exists (lit "disconnected"), []. split; [reflexivity|].
        right. repeat split. intros (r' & ms & [= <-] & _ & H). congruence.
    + exists (lit "disconnected"), []. split; [reflexivity|].
      right. repeat split. intros (r' & ms & [= <-] & H & _).
      apply Z.eqb_neq in Hs. contradiction.
  - rewrite Hf. exists (lit "disconnected"), []. split; [reflexivity|].
    right. repeat split. by intros (r' & ms & [=] & _).
Qed.

Lemma str_in_elem (x : pystr) (l : list pyval) :
  str_in x l = true <-> PStr x ∈ l.
Proof.
  unfold str_in. rewrite existsb_exists, list_elem_of_In. split.
  - intros (v & Hin & Hv). destruct v; simpl in Hv; try discriminate.
    apply bool_decide_eq_true in Hv. by subst.
  - intros Hin. exists (PStr x). split; [exact Hin|]. simpl.
    by apply bool_decide_eq_true.
Qed.

(** When the tags endpoint answers 200 and the listing can be read,
    [test_ollama] reports success with the models listed, and
    ["model_available"] is true exactly when the chatbot's model name is one
    of the listed names, as an equal string. *)
Theorem test_ollama_model_available (w : world) (medical_bot : MedicalChatbot)
    (st : pystate) (r : Response) (models : list pyval) :
  http_get w tags_url = Val r ->
  status_code r = 200 ->
  listed r = Val models ->
  let t := test_ollama w medical_bot st in
  answer_field "status" t = Some (PStr (lit "success"))
  /\ answer_field "available_models" t = Some (PList models)
  /\ answer_field "current_model" t = Some (PStr (model medical_bot))
  /\ exists b, answer_field "model_available" t = Some (PBool b)
               /\ (b = true <-> PStr (model medical_bot) ∈ models).
Proof.
  intros Hr Hs Hl t. subst t. rewrite test_ollama_run. simpl.
  rewrite Hr, Hs, Hl. simpl. repeat split.
  eexists. split; [reflexivity|]. apply str_in_elem.
Qed.

(** The failures [test_ollama] reports, always with HTTP status 200: a
    status other than 200 with that status in the message; a
    [ConnectionError] with the fixed hint; any other [Exception], of the
    GET or of reading the listing, with the text of the exception. *)
Theorem test_ollama_failures (w : world) (medical_bot : MedicalChatbot) (st : pystate) :
  let t := test_ollama w medical_bot st in
  let error (message : pystr) :=
    Val {| body := PDict [(lit "status", PStr (lit "error"));
                          (lit "message", PStr message)];
           status := 200 |} in
  (forall r, http_get w tags_url = Val r -> status_code r <> 200 ->
     t.1 = error (lit "Ollama returned status " ++ str_int (status_code r)))
  /\ (forall e, http_get w tags_url = Exc e -> is_ConnectionError e = true ->
        t.1 = error (lit "Cannot connect to Ollama. Make sure it's running with: ollama serve"))
  /\ (forall e,
        (http_get w tags_url = Exc e
         \/ exists r, http_get w tags_url = Val r /\ status_code r = 200
                      /\ listed r = Exc e) ->
        is_ConnectionError e = false -> is_Exception e = true ->
        t.1 = error (lit "Error testing Ollama: " ++ exn_str e)).
Proof.
  intros t error. subst t error. rewrite test_ollama_run. simpl. repeat split.
  - intros r -> Hs. apply Z.eqb_neq in Hs. by rewrite Hs.
  - intros e -> He. by rewrite He.
  - intros e [-> | (r & -> & Hs & Hl)] Hc He.
    + by rewrite Hc, He.
    + rewrite Hs, Hl. simpl. by rewrite Hc, He.
Qed.

(** [test_ollama] only looks: it makes the one GET of the tags endpoint,
    reads no clock, leaves the store alone, and never calls the generation
    endpoint. *)
Theorem test_ollama_only_probes (w : world) (medical_bot : MedicalChatbot) (st : pystate) :
  (test_ollama w medical_bot st).2 =
    {| heap := heap st; calls := calls st ++ [GET tags_url 5]; ticks := ticks st |}.
Proof.
  rewrite test_ollama_run. simpl.
  repeat (case_match; simpl; try reflexivity).
Qed.

(** The two diagnostic routes agree with each other and with the probe of
    the chatbot: [test_ollama] reports success exactly when [health_check]
    reports ["connected"], both then list the same models, and
    [test_ollama_connection] answers [True]. *)
Theorem diagnostics_agree (w : world) (medical_bot : MedicalChatbot) (st st' : pystate) :
  let t := test_ollama w medical_bot st in
  let h := health_check w medical_bot st' in
  (answer_field "status" t = Some (PStr (lit "success"))
   <-> answer_field "ollama" h = Some (PStr (lit "connected")))
  /\ (answer_field "status" t = Some (PStr (lit "success")) ->
        answer_field "available_models" t = answer_field "available_models" h
        /\ (test_ollama_connection w medical_bot st).1 = Val true).
Proof.
  intros t h. subst t h.
  rewrite test_ollama_run, health_check_run, test_ollama_connection_run.
  unfold probe, answer_field. simpl.
  destruct (http_get w tags_url) as [r|e].
  - destruct (status_code r =? 200).
    + destruct (listed r) as [models|e]; [done|].
      destruct (is_ConnectionError e), (is_Exception e); simpl;
        (split; [split; intros [=] | intros [=]]).
    + simpl. split; [split; intros [=] | intros [=]].
  - destruct (is_ConnectionError e), (is_Exception e); simpl;
      (split; [split; intros [=] | intros [=]]).
Qed.

(** The probe of the chatbot looks at the status only, the diagnostic
    routes also read the listing: when the tags endpoint answers 200 with a
    listing that cannot be read, [test_ollama_connection] answers [True]
    while [health_check] says ["disconnected"] and [test_ollama] reports an
    error. *)
Theorem unreadable_listing_splits_diagnostics (w : world) (medical_bot : MedicalChatbot)
    (st : pystate) (r : Response) (e : exn) :
  http_get w tags_url = Val r ->
  status_code r = 200 ->
  listed r = Exc e ->
  is_Exception e = true ->
  (test_ollama_connection w medical_bot st).1 = Val true
  /\ answer_field "ollama" (health_check w medical_bot st) = Some (PStr (lit "disconnected"))
  /\ answer_field "available_models" (health_check w medical_bot st) = Some (PList [])
  /\ answer_field "status" (test_ollama w medical_bot st) = Some (PStr (lit "error")).
Proof.
  intros Hr Hs Hl He.
  rewrite test_ollama_run, health_check_run, test_ollama_connection_run.
  unfold probe, answer_field. simpl. rewrite Hr, Hs, Hl, He. simpl.
  repeat split. by destruct (is_ConnectionError e).
Qed.

(** ** The further properties at concrete inputs *)

(** A connect time-out is both a [Timeout] and a [ConnectionError]. *)
Lemma first_matching_clause_witness :
  printable (model medical_bot0) = true
  /\ is_Timeout connect_timeout = true /\ is_ConnectionError connect_timeout = true
  /\ (process_medical_query (world_failing connect_timeout) medical_bot0
        (lit "I have a cold") state0).1
     = Val (TimedOut, PStr msg_timed_out).
Proof.
  split; [reflexivity|]. split; [reflexivity|]. split; [reflexivity|].
  exact (proj1 (first_matching_clause (world_failing connect_timeout) medical_bot0
                  (lit "I have a cold") state0 connect_timeout eq_refl eq_refl eq_refl)
           eq_refl).
Defined.

Lemma non_object_body_is_unexpected_witness :
  is_dict (PList []) = false
  /\ (process_medical_query (world_answering list_body_response) medical_bot0
        (lit "I have a cold") state0).1
     = Val (Unexpected, PStr msg_unexpected).
Proof.
  split; [reflexivity|].
  exact (proj1 (non_object_body_is_unexpected (world_answering list_body_response)
                  medical_bot0 (lit "I have a cold") state0 list_body_response (PList [])
                  eq_refl eq_refl eq_refl eq_refl eq_refl)).
Defined.

(** ["response": null] *)
Lemma falsy_reply_is_empty_witness :
  printable (model medical_bot0) = true
  /\ truthy PNone = false
  /\ (process_medical_query (world_answering (reply_value PNone)) medical_bot0
        (lit "I have a cold") state0).1
     = Val (EmptyReply, PStr msg_empty_reply).
Proof.
  split; [reflexivity|]. split; [reflexivity|].
  exact (proj1 (falsy_reply_is_empty (world_answering (reply_value PNone)) medical_bot0
                  (lit "I have a cold") state0 (reply_value PNone)
                  [(lit "response", PNone)] PNone
                  eq_refl eq_refl eq_refl eq_refl eq_refl eq_refl eq_refl)).
Defined.

(** A second chatbot beside the one that answered the question about the
    cold. *)
Lemma chatbots_do_not_share_witness :
  conversation_history medical_bot0 ∈ dom (heap state1)
  /\ exists b st1,
       MedicalChatbot_init (lit "mistral") state1 = (Val b, st1)
       /\ conversation_history b <> conversation_history medical_bot0
       /\ history medical_bot0
            (run_queries b [(world_answering (reply_with 200 cold_answer),
                             lit "And a cough")] st1).2
          = history medical_bot0 state1.
Proof.
  assert (H : conversation_history medical_bot0 ∈ dom (heap state1)).
  { apply elem_of_dom. eexists. vm_compute. reflexivity. }
  split; [exact H|].
  exact (chatbots_do_not_share medical_bot0 (lit "mistral") state1
           [(world_answering (reply_with 200 cold_answer), lit "And a cough")] H).
Defined.

(** The server is down: the error message goes back with status 200. *)
Lemma chat_relays_every_message_witness :
  strip (lit " I have a cold ") <> []
  /\ printable (strip (lit " I have a cold ")) = true
  /\ printable (take 100 msg_probe_failed) = true
  /\ chat world_down medical_bot0 cold_request state0 =
       (Val {| body := PDict [(lit "response", PStr msg_probe_failed);
                              (lit "timestamp", PStr (iso_clock 0))];
               status := 200 |},
        {| heap := heap state0; calls := [GET tags_url 5]; ticks := 1 |}).
Proof.
  assert (H : strip (lit " I have a cold ") <> []) by discriminate.
  split; [exact H|]. split; [reflexivity|]. split; [reflexivity|].
  exact (chat_relays_every_message world_down medical_bot0
           [(lit "message", PStr (lit " I have a cold "))] (lit " I have a cold ")
           state0 {| heap := heap state0; calls := [GET tags_url 5]; ticks := 0 |}
           ProbeFailed msg_probe_failed eq_refl H eq_refl eq_refl eq_refl).
Defined.

Lemma chat_effect_is_the_query_witness :
  strip (lit " I have a cold ") = lit "I have a cold"
  /\ printable (strip (lit " I have a cold ")) = true
  /\ heap (chat (world_answering (reply_with 200 cold_answer)) medical_bot0
             cold_request state0).2
     = heap (process_medical_query (world_answering (reply_with 200 cold_answer))
               medical_bot0 (strip (lit " I have a cold ")) state0).2.
Proof.
  split; [reflexivity|]. split; [reflexivity|].
  refine (proj1 (chat_effect_is_the_query (world_answering (reply_with 200 cold_answer))
                   medical_bot0 [(lit "message", PStr (lit " I have a cold "))]
                   (lit " I have a cold ") state0 eq_refl _ eq_refl)).
  discriminate.
Defined.

Lemma chat_always_answers_witness :
  request_fault_is_Exception cold_request = true
  /\ (forall user_input, faults_are_Exceptions world_down medical_bot0 user_input = true)
  /\ exists a st',
       chat world_down medical_bot0 cold_request state0 = (Val a, st')
       /\ (status a = 200 \/ status a = 400 \/ status a = 500).
Proof.
  assert (H : forall user_input,
             faults_are_Exceptions world_down medical_bot0 user_input = true)
    by (intros user_input; reflexivity).
  split; [reflexivity|]. split; [exact H|].
  exact (chat_always_answers world_down medical_bot0 cold_request state0 eq_refl H).
Defined.

(** ["response": 42] *)
Lemma chat_number_reply_witness :
  strip (lit " I have a cold ") <> []
  /\ (chat (world_answering (reply_value (PInt 42))) medical_bot0 cold_request state0).1
     = Val {| body := PDict [(lit "error",
                              PStr (lit "Server error: 'int' object is not subscriptable"))];
              status := 500 |}
  /\ history medical_bot0
       (chat (world_answering (reply_value (PInt 42))) medical_bot0 cold_request state0).2
     = [{| user := lit "I have a cold"; bot := PInt 42; timestamp := iso_clock 0 |}].
Proof.
  assert (H : strip (lit " I have a cold ") <> []) by discriminate.
  split; [exact H|].
  refine (chat_number_reply (world_answering (reply_value (PInt 42))) medical_bot0
            [(lit "message", PStr (lit " I have a cold "))] (lit " I have a cold ")
            state0 (reply_value (PInt 42)) [(lit "response", PInt 42)] 42
            eq_refl H eq_refl eq_refl eq_refl eq_refl eq_refl eq_refl eq_refl _).
  discriminate.
Defined.

Lemma history_after_chat_witness :
  strip (lit " I have a cold ") <> []
  /\ (get_history medical_bot0
        (chat (world_answering (reply_with 200 cold_answer)) medical_bot0
           cold_request state0).2).1
     = Val {| body := PList [PDict [(lit "user", PStr (lit "I have a cold"));
                                    (lit "bot", PStr cold_answer);
                                    (lit "timestamp", PStr (iso_clock 0))]];
              status := 200 |}.
Proof.
  assert (H : strip (lit " I have a cold ") <> []) by discriminate.
  split; [exact H|].
  exact (proj2 (proj2 (history_after_chat (world_answering (reply_with 200 cold_answer))
                         medical_bot0 [(lit "message", PStr (lit " I have a cold "))]
                         (lit " I have a cold ") cold_answer state0 state1
                         eq_refl H eq_refl eq_refl eq_refl))).
Defined.

(** Two models, the second without a name. *)
Lemma listing_names_witness :
  let d := [(lit "models",
             PList [PDict [(lit "name", PStr (lit "llama3.2:3b"))]; PDict []])] in
  let r := {| status_code := 200; text := Val (lit "{...}"); json := Val (PDict d) |} in
  json r = Val (PDict d)
  /\ listed r = Val [PStr (lit "llama3.2:3b"); PStr []].
Proof.
  intros d r. split; [reflexivity|].
  exact (proj1 (proj2 (listing_names r d eq_refl))
           [PDict [(lit "name", PStr (lit "llama3.2:3b"))]; PDict []]
           [PStr (lit "llama3.2:3b"); PStr []] eq_refl eq_refl).
Defined.

(** The server is not running. *)
Lemma health_check_always_answers_witness :
  tags_faults_are_Exceptions world_down = true
  /\ exists ollama models,
       health_check world_down medical_bot0 state0 =
         (Val {| body := PDict [(lit "status", PStr (lit "healthy"));
                                (lit "ollama", PStr ollama);
                                (lit "available_models", PList models);
                                (lit "current_model", PStr (model medical_bot0));
                                (lit "timestamp", PStr (clock world_down (ticks state0)))];
                 status := 200 |},
          {| heap := heap state0; calls := calls state0 ++ [GET tags_url 5];
             ticks := S (ticks state0) |})
       /\ ((ollama = lit "connected"
            /\ exists r, http_get world_down tags_url = Val r /\ status_code r = 200
                         /\ listed r = Val models)
           \/ (ollama = lit "disconnected" /\ models = []
               /\ ~ exists r ms, http_get world_down tags_url = Val r
                                 /\ status_code r = 200 /\ listed r = Val ms)).
Proof.
  split; [reflexivity|].
  exact (health_check_always_answers world_down medical_bot0 state0 eq_refl).
Defined.

(** The server lists two models, one of them the chatbot's. *)
Lemma test_ollama_model_available_witness :
  let w := world_listing [lit "mistral"; lit "llama3.2:3b"] html_response in
  (exists r, http_get w tags_url = Val r /\ status_code r = 200
             /\ listed r = Val [PStr (lit "mistral"); PStr (lit "llama3.2:3b")])
  /\ answer_field "status" (test_ollama w medical_bot0 state0) = Some (PStr (lit "success"))
  /\ answer_field "model_available" (test_ollama w medical_bot0 state0) = Some (PBool true).
Proof.
  intros w. split; [eexists; repeat split|].
  pose proof (test_ollama_model_available w medical_bot0 state0 _
                [PStr (lit "mistral"); PStr (lit "llama3.2:3b")]
                eq_refl eq_refl eq_refl) as (H1 & _ & _ & _).
  split; [exact H1 | reflexivity].
Defined.

(** The tags endpoint answers 200 with a page that is no JSON. *)
Lemma unreadable_listing_splits_diagnostics_witness :
  http_get (world_tags html_response) tags_url = Val html_response
  /\ listed html_response = Exc json_decode_error
  /\ (test_ollama_connection (world_tags html_response) medical_bot0 state0).1 = Val true
  /\ answer_field "ollama" (health_check (world_tags html_response) medical_bot0 state0)
     = Some (PStr (lit "disconnected")).
Proof.
  split; [reflexivity|]. split; [reflexivity|].
  pose proof (unreadable_listing_splits_diagnostics (world_tags html_response)
                medical_bot0 state0 html_response json_decode_error
                eq_refl eq_refl eq_refl eq_refl) as (H1 & H2 & _).
  split; [exact H1 | exact H2].
Defined.



